(** * publish-immutable-action: the publish orchestrator of [src/main.ts]

    A shallow embedding of [run], [parseSemverTagFromRef],
    [publishImmutableActionVersion], [publishAttestation],
    [generateAttestation] and [removePrefix], and the properties of the
    publishing protocol proved about them.

    The collaborators that [main.ts] imports ([./config], [./fs-helper],
    [./oci-container], [./ghcr-client], [semver], [@actions/attest],
    [crypto]) are gathered in the record [Platform]; every theorem holds
    for every platform.  Calls that touch the outside world thread an
    abstract [World] and may complete normally or throw. *)

From Stdlib Require Import Strings.Ascii Strings.String Strings.Byte NArith ZArith.
From stdpp Require Import gmap strings list fin_maps.

Open Scope string_scope.
Open Scope list_scope.

(** ** JavaScript strings and buffers

    A string is modelled by the sequence of its UTF-8 bytes (Rocq's
    [string]).  Every string operation of [main.ts] uses an ASCII literal
    as its pattern, so it acts on that sequence byte for byte. *)

Abbreviation Buffer := (list byte).

(** [Buffer.from(s)]: the UTF-8 bytes of [s]. *)
Definition Buffer_from (s : string) : Buffer := String.list_byte_of_string s.

(** [str.startsWith(prefix)] *)
Fixpoint startsWith (str prefix : string) {struct prefix} : bool :=
  match prefix, str with
  | EmptyString, _ => true
  | String p prefix', String c str' =>
      if Ascii.eqb p c then startsWith str' prefix' else false
  | String _ _, EmptyString => false
  end.

(** [str.slice(n)] for [0 <= n] *)
Fixpoint slice (str : string) (n : nat) {struct n} : string :=
  match n, str with
  | O, _ => str
  | S n', String _ str' => slice str' n'
  | S _, EmptyString => EmptyString
  end.

(** [str.replace(pattern, replacement)] with a string pattern: only the
    first occurrence is replaced.  (The replacement strings of [main.ts]
    contain no [$], so no replacement pattern is expanded.) *)
Fixpoint String_replace (str pattern replacement : string) : string :=
  if startsWith str pattern
  then replacement +:+ slice str (String.length pattern)
  else match str with
       | EmptyString => EmptyString
       | String c str' => String c (String_replace str' pattern replacement)
       end.

(** [str.replace(/^literal/, '')]: the regular expression is anchored at
    the start of the string and matches the literal only. *)
Definition replace_leading (str literal : string) : string :=
  if startsWith str literal then slice str (String.length literal) else str.

(** The lowercase hexadecimal encoding of [hash.digest('hex')]. *)
Definition hex_digit (n : N) : ascii :=
  match n with
  | 0 => "0" | 1 => "1" | 2 => "2" | 3 => "3" | 4 => "4" | 5 => "5"
  | 6 => "6" | 7 => "7" | 8 => "8" | 9 => "9" | 10 => "a" | 11 => "b"
  | 12 => "c" | 13 => "d" | 14 => "e" | _ => "f"
  end%N%char.

Fixpoint hex (b : Buffer) : string :=
  match b with
  | [] => EmptyString
  | x :: b' =>
      String (hex_digit (Byte.to_N x / 16))
        (String (hex_digit (Byte.to_N x mod 16)) (hex b'))
  end.

Definition is_lower_hex_digit (c : ascii) : bool :=
  let n := N_of_ascii c in
  ((48 <=? n) && (n <=? 57) || (97 <=? n) && (n <=? 102))%N.

Fixpoint string_forall (p : ascii -> bool) (s : string) : bool :=
  match s with
  | EmptyString => true
  | String c s' => p c && string_forall p s'
  end.

Definition is_lower_hex (s : string) : bool := string_forall is_lower_hex_digit s.

Definition no_colon (s : string) : bool :=
  string_forall (fun c => negb (Ascii.eqb c ":"%char)) s.

(** ** Values thrown and completions

    A JavaScript call completes normally with a value or throws; the
    [catch] of [run] tells instances of [Error] from every other thrown
    value. *)

Inductive thrown : Type :=
| ErrorObject (message : string)   (* [error instanceof Error] *)
| NonError (value : string).       (* anything else, by its printed form *)

Inductive completion (A : Type) : Type :=
| Normal (a : A)
| Throws (t : thrown).
Arguments Normal {A} a.
Arguments Throws {A} t.

(** ** Data of the collaborators, as [main.ts] uses it *)

(** [cfg.PublishActionOptions]: the fields [main.ts] reads. *)
Record PublishActionOptions : Type := {
  ref : string;
  sha : string;
  workspaceDir : string;
  runnerTempDir : string;
  nameWithOwner : string;
  repositoryId : string;
  repositoryOwnerId : string;
  isEnterprise : bool;
  token : string;
  containerRegistryUrl : string
}.

(** [fsHelper.FileMetadata] *)
Record FileMetadata : Type := {
  path : string;
  sha256 : string;
  size : Z
}.

(** The result of [fsHelper.createArchives]. *)
Record Archives : Type := {
  tarFile : FileMetadata;
  zipFile : FileMetadata
}.

(** [semver.SemVer]: [main.ts] reads [raw] only. *)
Record SemVer : Type := {
  raw : string;
  major : N;
  minor : N;
  patch : N
}.

(** The argument of [attest.attestProvenance]. *)
Record AttestProvenanceOptions : Type := {
  subjectName : string;
  subjectDigest_sha256 : string;   (* [subjectDigest: { sha256: ... }] *)
  attest_token : string;
  sigstore : string;
  skipWrite : bool
}.

(** A digest returned by the registry client: a string, or [undefined]
    (the case [run] guards against with [!== undefined]). *)
Abbreviation returned_digest := (option string).

(** How a template literal prints it. *)
Definition print_digest (d : returned_digest) : string :=
  match d with
  | Some s => s
  | None => "undefined"
  end.

(** ** The collaborators *)

Record Platform : Type := {
  OCIImageManifest : Type;
  OCIIndexManifest : Type;
  Attestation : Type;
  Date : Type;
  World : Type;

  (* ./config *)
  resolvePublishActionOptions : World -> completion PublishActionOptions * World;
  serializeOptions : PublishActionOptions -> string;

  (* semver *)
  semver_parse : string -> option SemVer;
  semver_printed : string;           (* the module object inside a template literal *)

  (* ./fs-helper *)
  ensureTagAndRefCheckedOut : string -> string -> string -> World -> completion unit * World;
  createTempDir : string -> string -> World -> completion string * World;
  stageActionFiles : string -> string -> World -> completion unit * World;
  createArchives : string -> string -> World -> completion Archives * World;
  readFileContents : string -> World -> completion Buffer * World;

  (* ./oci-container *)
  createActionPackageManifest :
    FileMetadata -> FileMetadata -> string -> string -> string -> string ->
    string -> Date -> completion OCIImageManifest;
  createSigstoreAttestationManifest :
    Z -> string -> Z -> string -> Date -> completion OCIImageManifest;
  createReferrerTagManifest : string -> Z -> Date -> completion OCIIndexManifest;
  sha256Digest : OCIImageManifest + OCIIndexManifest -> string;
  sizeInBytes : OCIImageManifest + OCIIndexManifest -> Z;
  emptyConfigSha : string;

  (* ./ghcr-client *)
  uploadOCIImageManifest :
    string -> string -> string -> OCIImageManifest -> gmap string Buffer ->
    option string -> World -> completion returned_digest * World;
  uploadOCIIndexManifest :
    string -> string -> string -> OCIIndexManifest -> string ->
    World -> completion returned_digest * World;

  (* @actions/attest; [bundle_json a] is [JSON.stringify(a.bundle)] *)
  attestProvenance : AttestProvenanceOptions -> World -> completion Attestation * World;
  bundle_json : Attestation -> string;

  (* crypto: the SHA-256 of a buffer, as raw bytes *)
  SHA256 : Buffer -> Buffer;

  (* [new Date()] *)
  new_Date : World -> Date * World
}.

(** ** What a run does, in order

    One event per call to the outside world, with how the call completed,
    and one per message of [@actions/core]. *)

Inductive event (P : Platform) : Type :=
| Info (message : string)
| SetOutput (name value : string)
| SetFailed (message : string)
| ResolveOptions (r : completion PublishActionOptions)
| EnsureTagAndRefCheckedOut (ref sha dir : string) (r : completion unit)
| CreateTempDir (dir name : string) (r : completion string)
| StageActionFiles (src dst : string) (r : completion unit)
| CreateArchives (src dst : string) (r : completion Archives)
| ReadFileContents (path : string) (r : completion Buffer)
| CreateActionPackageManifest (r : completion (OCIImageManifest P))
| CreateSigstoreAttestationManifest (r : completion (OCIImageManifest P))
| CreateReferrerTagManifest (r : completion (OCIIndexManifest P))
| AttestProvenance (o : AttestProvenanceOptions) (r : completion (Attestation P))
| UploadOCIImageManifest (token registry repository : string)
    (manifest : OCIImageManifest P) (files : gmap string Buffer)
    (tag : option string) (r : completion returned_digest)
| UploadOCIIndexManifest (token registry repository : string)
    (manifest : OCIIndexManifest P) (tag : string)
    (r : completion returned_digest).

Arguments Info {P}.
Arguments SetOutput {P}.
Arguments SetFailed {P}.
Arguments ResolveOptions {P}.
Arguments EnsureTagAndRefCheckedOut {P}.
Arguments CreateTempDir {P}.
Arguments StageActionFiles {P}.
Arguments CreateArchives {P}.
Arguments ReadFileContents {P}.
Arguments CreateActionPackageManifest {P}.
Arguments CreateSigstoreAttestationManifest {P}.
Arguments CreateReferrerTagManifest {P}.
Arguments AttestProvenance {P}.
Arguments UploadOCIImageManifest {P}.
Arguments UploadOCIIndexManifest {P}.

(** ** The monad of the orchestrator: world, trace and exceptions *)

Record ran (P : Platform) (A : Type) : Type := Ran {
  trace : list (event P);
  world : World P;
  result : completion A
}.
Arguments Ran {P A}.
Arguments trace {P A}.
Arguments world {P A}.
Arguments result {P A}.

Definition M (P : Platform) (A : Type) : Type := World P -> ran P A.

Definition ret {P A} (a : A) : M P A :=
  fun w => Ran [] w (Normal a).

Definition throw {P A} (t : thrown) : M P A :=
  fun w => Ran [] w (Throws t).

Definition bind {P A B} (m : M P A) (k : A -> M P B) : M P B :=
  fun w =>
    match m w with
    | Ran tr w1 (Normal a) =>
        match k a w1 with
        | Ran tr' w2 r => Ran (tr ++ tr') w2 r
        end
    | Ran tr w1 (Throws t) => Ran tr w1 (Throws t)
    end.

(** [try { body } catch (error) { handler }] *)
Definition try_catch {P A} (body : M P A) (handler : thrown -> M P A) : M P A :=
  fun w =>
    match body w with
    | Ran tr w1 (Normal a) => Ran tr w1 (Normal a)
    | Ran tr w1 (Throws t) =>
        match handler t w1 with
        | Ran tr' w2 r => Ran (tr ++ tr') w2 r
        end
    end.

(** A message of [@actions/core]: [core.info], [core.setOutput] and
    [core.setFailed] write to the log of the workflow and do not throw. *)
Definition emit {P} (e : event P) : M P unit :=
  fun w => Ran [e] w (Normal tt).

(** A call to the outside world, recorded with its completion. *)
Definition call {P A} (f : World P -> completion A * World P)
    (record : completion A -> event P) : M P A :=
  fun w =>
    match f w with
    | (r, w1) => Ran [record r] w1 r
    end.

(** A call to a function that reads no state but may throw. *)
Definition compute {P A} (r : completion A) (record : completion A -> event P) : M P A :=
  fun w => Ran [record r] w r.

(** [new Date()] *)
Definition now {P} : M P (Date P) :=
  fun w =>
    match new_Date P w with
    | (d, w1) => Ran [] w1 (Normal d)
    end.

Declare Scope js_scope.
Delimit Scope js_scope with js.
Notation "x <- m ;; k" := (bind m (fun x => k))
  (at level 100, m at next level, k at level 200, right associativity) : js_scope.
Notation "m ;; k" := (bind m (fun _ => k))
  (at level 100, k at level 200, right associativity) : js_scope.
Open Scope js_scope.

Module core.
Definition info {P} (message : string) : M P unit := emit (Info message).
Definition setOutput {P} (name value : string) : M P unit := emit (SetOutput name value).
Definition setFailed {P} (message : string) : M P unit := emit (SetFailed message).
End core.

(** ** [main.ts] *)

(** What [generateAttestation] returns. *)
Record AttestationBundle : Type := {
  bundle : Buffer;
  bundleDigest : string
}.

(** What [publishAttestation] returns. *)
Record PublishedAttestation : Type := {
  attestationSHA : returned_digest;
  referrerIndexSHA : returned_digest
}.

Definition removePrefix (str prefix : string) : string :=
  if startsWith str prefix then slice str (String.length prefix) else str.

Section Main.
Variable P : Platform.

Definition parseSemverTagFromRef (opts : PublishActionOptions) : M P SemVer :=
  if negb (startsWith (ref opts) "refs/tags/")
  then throw (ErrorObject
                ("The ref " +:+ ref opts +:+ " is not a valid tag reference."))
  else
    let rawTag := replace_leading (ref opts) "refs/tags/" in
    match semver_parse P (replace_leading rawTag "v") with
    | None =>
        throw (ErrorObject
                 (rawTag +:+ " is not a valid semantic version tag, and so cannot be uploaded to the action package."))
    | Some semverTag => ret semverTag
    end.

Definition publishImmutableActionVersion (options : PublishActionOptions)
    (semverTag : string) (zipFile tarFile : FileMetadata)
    (manifest : OCIImageManifest P) : M P returned_digest :=
  let manifestDigest := sha256Digest P (inl manifest) in
  core.info ("Creating GHCR package " +:+ manifestDigest +:+
             " for release with semver: " +:+ semver_printed P +:+ ".");;
  zipContents <- call (readFileContents P (path zipFile))
                      (ReadFileContents (path zipFile));;
  tarContents <- call (readFileContents P (path tarFile))
                      (ReadFileContents (path tarFile));;
  let files : gmap string Buffer :=
    <[emptyConfigSha P := Buffer_from "{}"]>
      (<[sha256 tarFile := tarContents]>
         (<[sha256 zipFile := zipContents]> ∅)) in
  call (uploadOCIImageManifest P (token options) (containerRegistryUrl options)
          (nameWithOwner options) manifest files (Some semverTag))
       (UploadOCIImageManifest (token options) (containerRegistryUrl options)
          (nameWithOwner options) manifest files (Some semverTag)).

Definition publishAttestation (options : PublishActionOptions)
    (bundle : Buffer) (bundleDigest : string)
    (subjectManifest attestationManifest : OCIImageManifest P)
    (referrerIndexManifest : OCIIndexManifest P) : M P PublishedAttestation :=
  let attestationManifestDigest := sha256Digest P (inl attestationManifest) in
  let subjectManifestDigest := sha256Digest P (inl subjectManifest) in
  let referrerIndexManifestDigest := sha256Digest P (inr referrerIndexManifest) in
  core.info ("Publishing attestation " +:+ attestationManifestDigest +:+
             " for subject " +:+ subjectManifestDigest +:+ ".");;
  let files : gmap string Buffer :=
    <[bundleDigest := bundle]> (<[emptyConfigSha P := Buffer_from "{}"]> ∅) in
  attestationSHA <-
    call (uploadOCIImageManifest P (token options) (containerRegistryUrl options)
            (nameWithOwner options) attestationManifest files None)
         (UploadOCIImageManifest (token options) (containerRegistryUrl options)
            (nameWithOwner options) attestationManifest files None);;
  (* The referrer index is tagged with the subject's digest in format sha256-<digest> *)
  let referrerTag := String_replace subjectManifestDigest ":" "-" in
  core.info ("Publishing referrer index " +:+ referrerIndexManifestDigest +:+
             " with tag " +:+ referrerTag +:+ " for attestation " +:+
             attestationManifestDigest +:+ " and subject " +:+
             subjectManifestDigest +:+ ".");;
  referrerIndexSHA <-
    call (uploadOCIIndexManifest P (token options) (containerRegistryUrl options)
            (nameWithOwner options) referrerIndexManifest referrerTag)
         (UploadOCIIndexManifest (token options) (containerRegistryUrl options)
            (nameWithOwner options) referrerIndexManifest referrerTag);;
  ret {| attestationSHA := attestationSHA; referrerIndexSHA := referrerIndexSHA |}.

Definition generateAttestation (manifestDigest semverTag : string)
    (options : PublishActionOptions) : M P AttestationBundle :=
  let subjectName := nameWithOwner options +:+ "@" +:+ semverTag in
  let subjectDigest := removePrefix manifestDigest "sha256:" in
  core.info ("Generating attestation " +:+ subjectName +:+ " for digest " +:+
             subjectDigest);;
  let request :=
    {| subjectName := subjectName;
       subjectDigest_sha256 := subjectDigest;
       attest_token := token options;
       sigstore := "github";
       skipWrite := true (* We will upload attestations to GHCR *) |} in
  attestation <- call (attestProvenance P request) (AttestProvenance request);;
  let bundleArtifact := Buffer_from (bundle_json P attestation) in
  let bundleSHA := hex (SHA256 P bundleArtifact) in
  ret {| bundle := bundleArtifact; bundleDigest := "sha256:" +:+ bundleSHA |}.

(** The [try] block of [run]. *)
Definition run_try : M P unit :=
  options <- call (resolvePublishActionOptions P) ResolveOptions;;
  core.info "Publishing action package version with options:";;
  core.info (serializeOptions P options);;
  semverTag <- parseSemverTagFromRef options;;
  (* Ensure the correct SHA is checked out for the tag we're parsing *)
  call (ensureTagAndRefCheckedOut P (ref options) (sha options) (workspaceDir options))
       (EnsureTagAndRefCheckedOut (ref options) (sha options) (workspaceDir options));;
  stagedActionFilesDir <-
    call (createTempDir P (runnerTempDir options) "staging")
         (CreateTempDir (runnerTempDir options) "staging");;
  call (stageActionFiles P (workspaceDir options) stagedActionFilesDir)
       (StageActionFiles (workspaceDir options) stagedActionFilesDir);;
  archiveDir <-
    call (createTempDir P (runnerTempDir options) "archives")
         (CreateTempDir (runnerTempDir options) "archives");;
  archives <-
    call (createArchives P stagedActionFilesDir archiveDir)
         (CreateArchives stagedActionFilesDir archiveDir);;
  created <- now;;
  manifest <-
    compute (createActionPackageManifest P (tarFile archives) (zipFile archives)
               (nameWithOwner options) (repositoryId options)
               (repositoryOwnerId options) (sha options) (raw semverTag) created)
            CreateActionPackageManifest;;
  let manifestDigest := sha256Digest P (inl manifest) in
  (* Attestations are not supported in GHES. *)
  (if negb (isEnterprise options) then
     generated <- generateAttestation manifestDigest (raw semverTag) options;;
     attestationCreated <- now;;
     attestationManifest <-
       compute (createSigstoreAttestationManifest P
                  (Z.of_nat (length (bundle generated))) (bundleDigest generated)
                  (sizeInBytes P (inl manifest)) manifestDigest attestationCreated)
               CreateSigstoreAttestationManifest;;
     referrerIndexManifest <-
       compute (createReferrerTagManifest P
                  (sha256Digest P (inl attestationManifest))
                  (sizeInBytes P (inl attestationManifest)) attestationCreated)
               CreateReferrerTagManifest;;
     published <-
       publishAttestation options (bundle generated) (bundleDigest generated)
         manifest attestationManifest referrerIndexManifest;;
     (match attestationSHA published with
      | Some attestationSHA =>
          core.info ("Uploaded attestation " +:+ attestationSHA);;
          core.setOutput "attestation-manifest-sha" attestationSHA
      | None => ret tt
      end);;
     (match referrerIndexSHA published with
      | Some referrerIndexSHA =>
          core.info ("Uploaded referrer index " +:+ referrerIndexSHA);;
          core.setOutput "referrer-index-manifest-sha" referrerIndexSHA
      | None => ret tt
      end)
   else ret tt);;
  publishedDigest <-
    publishImmutableActionVersion options (raw semverTag) (zipFile archives)
      (tarFile archives) manifest;;
  if bool_decide (Some manifestDigest ≠ publishedDigest)
  then throw (ErrorObject
                ("Unexpected digest returned for manifest. Expected " +:+
                 manifestDigest +:+ ", got " +:+ print_digest publishedDigest))
  else core.setOutput "package-manifest-sha" (print_digest publishedDigest).

(** The [catch] block: fail the workflow run if an error occurs. *)
Definition run_catch (error : thrown) : M P unit :=
  match error with
  | ErrorObject message => core.setFailed message
  | NonError _ => ret tt
  end.

Definition run : M P unit := try_catch run_try run_catch.

End Main.

(** ** Concrete platforms

    A small executable world on which the orchestrator can be run: manifests
    are their JSON text, the clock counts calls, the files of the archives
    are fixed, and a scenario chooses the options, the signing service and
    the behaviour of the registry. *)

Module Demo.

(** A one-byte checksum standing in for SHA-256. *)
Definition checksum (b : Buffer) : Buffer :=
  [byte_of_ascii
     (ascii_of_N (fold_right (fun x acc => (Byte.to_N x + 3 * acc) mod 256)%N 7%N b))].

Definition digest_of (text : string) : string :=
  "sha256:" +:+ hex (checksum (Buffer_from text)).

(** [MAJOR.MINOR.PATCH] with decimal numbers: the core of what
    [semver.parse] accepts. *)
Fixpoint decimal (s : string) (acc : N) : option N :=
  match s with
  | EmptyString => Some acc
  | String c s' =>
      let n := N_of_ascii c in
      if ((48 <=? n) && (n <=? 57))%N
      then decimal s' (10 * acc + (n - 48))%N
      else None
  end.

Definition number (s : string) : option N :=
  match s with
  | EmptyString => None
  | _ => decimal s 0%N
  end.

Fixpoint fields (s : string) (current : string) : list string :=
  match s with
  | EmptyString => [current]
  | String c s' =>
      if Ascii.eqb c "."%char
      then current :: fields s' EmptyString
      else fields s' (current +:+ String c EmptyString)
  end.

Definition parse (version : string) : option SemVer :=
  match fields version EmptyString with
  | [a; b; c] =>
      match number a, number b, number c with
      | Some x, Some y, Some z =>
          Some {| raw := version; major := x; minor := y; patch := z |}
      | _, _, _ => None
      end
  | _ => None
  end.

Record scenario : Type := {
  resolved : completion PublishActionOptions;
  signing : completion string;
  file_contents : string -> completion Buffer;
  image_upload : string -> option string -> completion returned_digest;
  index_upload : string -> string -> completion returned_digest
}.

Definition tar : FileMetadata :=
  {| path := "/tmp/archives/archive.tar.gz"; sha256 := "sha256:aa"; size := 100 |}.
Definition zip : FileMetadata :=
  {| path := "/tmp/archives/archive.zip"; sha256 := "sha256:bb"; size := 200 |}.

Definition platform (s : scenario) : Platform :=
  {| OCIImageManifest := string;
     OCIIndexManifest := string;
     Attestation := string;
     Date := nat;
     World := nat;
     resolvePublishActionOptions := fun w => (resolved s, S w);
     serializeOptions := fun o => "{ref: " +:+ ref o +:+ "}";
     semver_parse := parse;
     semver_printed := "[object Object]";
     ensureTagAndRefCheckedOut := fun _ _ _ w => (Normal tt, S w);
     createTempDir := fun dir name w => (Normal (dir +:+ "/" +:+ name), S w);
     stageActionFiles := fun _ _ w => (Normal tt, S w);
     createArchives := fun _ _ w => (Normal {| tarFile := tar; zipFile := zip |}, S w);
     readFileContents := fun p w => (file_contents s p, S w);
     createActionPackageManifest := fun t z name _ _ commit version _ =>
       Normal ("{package " +:+ name +:+ "@" +:+ version +:+ " " +:+ commit +:+
               " " +:+ sha256 t +:+ " " +:+ sha256 z +:+ "}");
     createSigstoreAttestationManifest := fun _ bundleDigest _ subject _ =>
       Normal ("{attestation " +:+ bundleDigest +:+ " of " +:+ subject +:+ "}");
     createReferrerTagManifest := fun attestation _ _ =>
       Normal ("{index " +:+ attestation +:+ "}");
     sha256Digest := fun m =>
       match m with
       | inl image => digest_of image
       | inr index => digest_of index
       end;
     sizeInBytes := fun m =>
       match m with
       | inl image => Z.of_nat (String.length image)
       | inr index => Z.of_nat (String.length index)
       end;
     emptyConfigSha :=
       "sha256:44136fa355b3678a1146ad16f7e8649e94fb4fc21fe77e8310c060f61caaff8a";
     uploadOCIImageManifest := fun _ _ _ m _ tag w => (image_upload s m tag, S w);
     uploadOCIIndexManifest := fun _ _ _ m tag w => (index_upload s m tag, S w);
     attestProvenance := fun _ w => (signing s, S w);
     bundle_json := fun a => a;
     SHA256 := checksum;
     new_Date := fun w => (w, S w) |}.

Definition options (tagRef : string) (enterprise : bool) : PublishActionOptions :=
  {| ref := tagRef;
     sha := "0123abc";
     workspaceDir := "/work";
     runnerTempDir := "/tmp";
     nameWithOwner := "octo/action";
     repositoryId := "42";
     repositoryOwnerId := "7";
     isEnterprise := enterprise;
     token := "token";
     containerRegistryUrl := "https://ghcr.io" |}.

(** A registry that stores what it is sent and answers with its digest. *)
Definition honest (tagRef : string) (enterprise : bool) : scenario :=
  {| resolved := Normal (options tagRef enterprise);
     signing := Normal "{bundle}";
     file_contents := fun p => Normal (Buffer_from p);
     image_upload := fun m _ => Normal (Some (digest_of m));
     index_upload := fun m _ => Normal (Some (digest_of m)) |}.

(** A registry that answers every upload without a tag, and every index
    upload, with a digest of its own. *)
Definition unfaithful_to_attestations : scenario :=
  {| resolved := Normal (options "refs/tags/v1.2.3" false);
     signing := Normal "{bundle}";
     file_contents := fun p => Normal (Buffer_from p);
     image_upload := fun m tag =>
       match tag with
       | Some _ => Normal (Some (digest_of m))
       | None => Normal (Some "sha256:00")
       end;
     index_upload := fun _ _ => Normal (Some "sha256:01") |}.

(** A registry that answers the upload of the package with a digest of
    its own. *)
Definition unfaithful_to_package : scenario :=
  {| resolved := Normal (options "refs/tags/v1.2.3" true);
     signing := Normal "{bundle}";
     file_contents := fun p => Normal (Buffer_from p);
     image_upload := fun _ _ => Normal (Some "sha256:00");
     index_upload := fun m _ => Normal (Some (digest_of m)) |}.

(** The upload of the package rejects with a value that is no [Error]. *)
Definition package_upload_rejects (t : thrown) : scenario :=
  {| resolved := Normal (options "refs/tags/v1.2.3" false);
     signing := Normal "{bundle}";
     file_contents := fun p => Normal (Buffer_from p);
     image_upload := fun m tag =>
       match tag with
       | Some _ => Throws t
       | None => Normal (Some (digest_of m))
       end;
     index_upload := fun m _ => Normal (Some (digest_of m)) |}.

(** The signing service fails. *)
Definition signing_fails (t : thrown) : scenario :=
  {| resolved := Normal (options "refs/tags/v1.2.3" false);
     signing := Throws t;
     file_contents := fun p => Normal (Buffer_from p);
     image_upload := fun m _ => Normal (Some (digest_of m));
     index_upload := fun m _ => Normal (Some (digest_of m)) |}.

(** What the runs below send: the package manifest, the blobs of the two
    uploads and the request to the signing service. *)
Definition package_manifest : string :=
  "{package octo/action@1.2.3 0123abc sha256:aa sha256:bb}".

Definition package_files : gmap string Buffer :=
  <["sha256:44136fa355b3678a1146ad16f7e8649e94fb4fc21fe77e8310c060f61caaff8a" :=
      Buffer_from "{}"]>
    (<["sha256:aa" := Buffer_from "/tmp/archives/archive.tar.gz"]>
       (<["sha256:bb" := Buffer_from "/tmp/archives/archive.zip"]> ∅)).

Definition attestation_files : gmap string Buffer :=
  <["sha256:63" := Buffer_from "{bundle}"]>
    (<["sha256:44136fa355b3678a1146ad16f7e8649e94fb4fc21fe77e8310c060f61caaff8a" :=
         Buffer_from "{}"]> ∅).

Definition signing_request : AttestProvenanceOptions :=
  {| subjectName := "octo/action@1.2.3";
     subjectDigest_sha256 := "f1";
     attest_token := "token";
     sigstore := "github";
     skipWrite := true |}.

End Demo.

(** ** Vocabulary of the statements *)

(** A tag with a single leading [v] stripped. *)
Definition without_leading_v (tag : string) : string :=
  match tag with
  | String "v"%char rest => rest
  | _ => tag
  end.

(** A hexadecimal digit, of either case. *)
Definition is_hex_digit (c : ascii) : bool :=
  let n := N_of_ascii c in
  ((48 <=? n) && (n <=? 57) || (65 <=? n) && (n <=? 70) ||
   (97 <=? n) && (n <=? 102))%N.

Definition is_hex (s : string) : bool := string_forall is_hex_digit s.

(** Kinds of events. *)
Definition is_output {P} (e : event P) : bool :=
  match e with
  | SetOutput _ _ => true
  | _ => false
  end.

Definition output_named {P} (name : string) (e : event P) : bool :=
  match e with
  | SetOutput n _ => String.eqb n name
  | _ => false
  end.

Definition is_failure {P} (e : event P) : bool :=
  match e with
  | SetFailed _ => true
  | _ => false
  end.

(** The upload of the subject manifest is the one that carries a tag. *)
Definition subject_upload {P} (e : event P) : bool :=
  match e with
  | UploadOCIImageManifest _ _ _ _ _ (Some _) _ => true
  | _ => false
  end.

Definition index_upload {P} (e : event P) : bool :=
  match e with
  | UploadOCIIndexManifest _ _ _ _ _ _ => true
  | _ => false
  end.

Definition package_manifest_built {P} (e : event P) : bool :=
  match e with
  | CreateActionPackageManifest (Normal _) => true
  | _ => false
  end.

(** The steps of the attestation branch of [run]: the request to the
    signing service, the construction of the attestation manifest and of
    the referrer index, and their uploads (the attestation manifest is the
    one uploaded without a tag). *)
Definition attestation_step {P} (e : event P) : bool :=
  match e with
  | AttestProvenance _ _ => true
  | CreateSigstoreAttestationManifest _ => true
  | CreateReferrerTagManifest _ => true
  | UploadOCIImageManifest _ _ _ _ _ None _ => true
  | UploadOCIIndexManifest _ _ _ _ _ _ => true
  | _ => false
  end.

(** What a step of the attestation branch threw, if it failed. *)
Definition attestation_failure {P} (e : event P) : option thrown :=
  match e with
  | AttestProvenance _ (Throws t) => Some t
  | CreateSigstoreAttestationManifest (Throws t) => Some t
  | CreateReferrerTagManifest (Throws t) => Some t
  | UploadOCIImageManifest _ _ _ _ _ None (Throws t) => Some t
  | UploadOCIIndexManifest _ _ _ _ _ (Throws t) => Some t
  | _ => None
  end.

Definition attestation_failed {P} (e : event P) : bool :=
  match attestation_failure e with
  | Some _ => true
  | None => false
  end.

Definition image_upload {P} (e : event P) : bool :=
  match e with
  | UploadOCIImageManifest _ _ _ _ _ _ _ => true
  | _ => false
  end.

(** The positions of a list, counted from [n], whose element satisfies [p]. *)
Fixpoint positions {A} (p : A → bool) (l : list A) (n : nat) : list nat :=
  match l with
  | [] => []
  | x :: l' =>
      if p x then n :: positions p l' (S n) else positions p l' (S n)
  end.

(** What the [catch] block of [run] reports for a thrown value. *)
Definition reported {P} (t : thrown) : list (event P) :=
  match t with
  | ErrorObject message => [SetFailed message]
  | NonError _ => []
  end.

(** [run] in terms of its [try] block: a normal completion is kept, a
    thrown value is caught and reported. *)
Definition settle {P} (attempt : ran P unit) : ran P unit :=
  match attempt with
  | Ran tr w (Normal a) => Ran tr w (Normal a)
  | Ran tr w (Throws t) => Ran (tr ++ reported t) w (Normal tt)
  end.

(** A step of [publishImmutableActionVersion] that threw [t]. *)
Definition package_publish_failure {P} (e : event P) (t : thrown) : Prop :=
  (∃ p, e = ReadFileContents p (Throws t)) ∨
  (∃ token registry repository manifest files tag,
     e = UploadOCIImageManifest token registry repository manifest files
           (Some tag) (Throws t)).

(** "If any step throws a value that is no [Error], [run] resolves
    normally with no failure reported and no outputs emitted." *)
Definition silent_on_non_error (P : Platform) (w : World P) : Prop :=
  ∀ v, result (run_try P w) = Throws (NonError v) →
    result (run P w) = Normal tt ∧
    (∀ message, SetFailed message ∉ trace (run P w)) ∧
    (∀ name value, SetOutput name value ∉ trace (run P w)).

(** "Every registry-returned digest of the attestation branch is verified
    against the locally computed one, and a mismatch is fatal": no output
    of the attestation branch carries a digest other than the local one. *)
Definition attestation_digests_verified (P : Platform) (w : World P) : Prop :=
  ∀ i token registry repository manifest files digest,
    trace (run P w) !! i =
      Some (UploadOCIImageManifest token registry repository manifest files None
              (Normal (Some digest))) →
    digest ≠ sha256Digest P (inl manifest) →
    (∃ message, SetFailed message ∈ trace (run P w)) ∧
    (∀ value, SetOutput "attestation-manifest-sha" value ∉ trace (run P w)).

(** "When a step of the attestation branch fails, the whole run fails":
    the run is marked failed, as a run that fails is, with no output set
    and the subject manifest not uploaded. *)
Definition failed_attestation_marks_failure (P : Platform) (w : World P) : Prop :=
  ∀ i e t,
    trace (run P w) !! i = Some e →
    attestation_failure e = Some t →
    (∃ message, SetFailed message ∈ trace (run P w)) ∧
    (∀ e', e' ∈ trace (run P w) → is_output e' = false) ∧
    (∀ e', e' ∈ trace (run P w) → subject_upload e' = false).

(** What a call to a collaborator threw, if it threw. *)
Definition thrown_by {P} (e : event P) : option thrown :=
  match e with
  | ResolveOptions (Throws t) => Some t
  | EnsureTagAndRefCheckedOut _ _ _ (Throws t) => Some t
  | CreateTempDir _ _ (Throws t) => Some t
  | StageActionFiles _ _ (Throws t) => Some t
  | CreateArchives _ _ (Throws t) => Some t
  | ReadFileContents _ (Throws t) => Some t
  | CreateActionPackageManifest (Throws t) => Some t
  | CreateSigstoreAttestationManifest (Throws t) => Some t
  | CreateReferrerTagManifest (Throws t) => Some t
  | AttestProvenance _ (Throws t) => Some t
  | UploadOCIImageManifest _ _ _ _ _ _ (Throws t) => Some t
  | UploadOCIIndexManifest _ _ _ _ _ (Throws t) => Some t
  | _ => None
  end.

Definition threw {P} (e : event P) : bool :=
  match thrown_by e with
  | Some _ => true
  | None => false
  end.

(** ** Strings *)

Lemma startsWith_app (prefix rest : string) :
  startsWith (prefix +:+ rest) prefix = true.
Proof.
  induction prefix as [|c prefix IH]; simpl; [done|].
  by rewrite Ascii.eqb_refl.
Qed.

Lemma startsWith_inv (str prefix : string) :
  startsWith str prefix = true → ∃ rest, str = prefix +:+ rest.
Proof.
  revert str. induction prefix as [|c prefix IH]; intros str H.
  - by exists str.
  - destruct str as [|d str]; simpl in H; [done|].
    destruct (Ascii.eqb_spec c d) as [->|]; [|done].
    destruct (IH _ H) as [rest ->]. by exists rest.
Qed.

Lemma slice_app (prefix rest : string) :
  slice (prefix +:+ rest) (String.length prefix) = rest.
Proof. induction prefix as [|c prefix IH]; simpl; [by destruct rest|done]. Qed.

Lemma replace_leading_app (literal rest : string) :
  replace_leading (literal +:+ rest) literal = rest.
Proof. unfold replace_leading. by rewrite startsWith_app, slice_app. Qed.

Lemma replace_leading_v (tag : string) :
  replace_leading tag "v" = without_leading_v tag.
Proof.
  destruct tag as [|c tag]; [done|].
  by destruct c as [[] [] [] [] [] [] [] []].
Qed.

Lemma removePrefix_app (prefix rest : string) :
  removePrefix (prefix +:+ rest) prefix = rest.
Proof. unfold removePrefix. by rewrite startsWith_app, slice_app. Qed.

Lemma hex_digit_lower (n : N) : is_lower_hex_digit (hex_digit n) = true.
Proof.
  destruct n as [|p]; [done|].
  do 4 (try destruct p as [p|p|]; try done).
Qed.

Lemma hex_lower (b : Buffer) : is_lower_hex (hex b) = true.
Proof.
  induction b as [|x b IH]; [done|].
  unfold is_lower_hex in *; simpl.
  by rewrite !hex_digit_lower, IH.
Qed.

Lemma hex_length (b : Buffer) : String.length (hex b) = 2 * length b.
Proof. induction b as [|x b IH]; simpl; [done|]. rewrite IH. lia. Qed.

Lemma hex_digit_no_colon (c : ascii) :
  is_hex_digit c = true → Ascii.eqb c ":" = false.
Proof. destruct (Ascii.eqb_spec c ":") as [->|]; [done|done]. Qed.

Lemma hex_no_colon (s : string) : is_hex s = true → no_colon s = true.
Proof.
  unfold is_hex, no_colon.
  induction s as [|c s IH]; simpl; [done|].
  intros [Hc Hs]%andb_prop.
  by rewrite (hex_digit_no_colon c Hc), IH.
Qed.

Lemma replace_colon_of_digest (digits : string) :
  String_replace ("sha256:" +:+ digits) ":" "-" = "sha256-" +:+ digits.
Proof. by destruct digits. Qed.

(* Symbolic execution keeps the tests on the ref folded. *)
Arguments startsWith : simpl never.
Arguments replace_leading : simpl never.

(** ** Symbolic execution of the orchestrator

    [explore] unfolds the orchestrator and cases on every call to the
    outside world in program order, leaving one goal per path of [run]. *)

Ltac unfold_orchestrator :=
  unfold run, try_catch, run_try, run_catch, publishAttestation,
    publishImmutableActionVersion, generateAttestation, parseSemverTagFromRef,
    core.info, core.setOutput, core.setFailed, bind, call, compute, now, emit,
    ret, throw.

Ltac step :=
  match goal with
  | |- context [ match ?x with _ => _ end ] =>
      lazymatch x with
      | context [ match _ with _ => _ end ] => fail
      | _ => tryif is_var x then destruct x else destruct x eqn:?
      end
  end; cbn.

Ltac explore := unfold_orchestrator; cbn; repeat step.

Lemma run_settles (P : Platform) (w : World P) : run P w = settle (run_try P w).
Proof.
  unfold run, try_catch, settle.
  by destruct (run_try P w) as [tr w1 [a|[message|v]]]; cbn; rewrite ?app_nil_r.
Qed.

(** To explore [run P w]: name the outcome of its [try] block and explore
    the block once.  Each path leaves [Hrun : attempt = Ran ...], the
    explicit outcome of the block on that path; [on_path H] puts it into
    the hypothesis [H] and [on_path_goal] into the goal. *)
Ltac explore_run P w :=
  rewrite ?(run_settles P w) in *;
  let attempt := fresh "attempt" in
  let E := fresh "E" in
  remember (run_try P w) as attempt eqn:E;
  revert E; explore; intros Hrun;
  try match type of Hrun with _ = Ran _ _ (Throws ?t) => is_var t; destruct t end.

Ltac on_path H :=
  match goal with E : _ = Ran _ _ _ |- _ => rewrite E in H end; cbn in H.
Ltac on_path_goal :=
  match goal with E : _ = Ran _ _ _ |- _ => rewrite E end; cbn.

(** Paths are first told apart by the kinds of events they contain. *)
Lemma elem_of_existsb {A} (p : A → bool) (l : list A) (x : A) :
  x ∈ l → p x = true → existsb p l = true.
Proof.
  intros Hin Hp. apply existsb_exists. exists x. by rewrite <-list_elem_of_In.
Qed.

Lemma lookup_existsb {A} (p : A → bool) (l : list A) (i : nat) (x : A) :
  l !! i = Some x → p x = true → existsb p l = true.
Proof. intros H. apply elem_of_existsb. by eapply list_elem_of_lookup_2. Qed.

Lemma not_elem_of_existsb {A} (p : A → bool) (l : list A) (x : A) :
  existsb p l = false → p x = true → x ∉ l.
Proof.
  intros Hnone Hp Hin. by rewrite (elem_of_existsb p l x Hin Hp) in Hnone.
Qed.

Lemma existsb_false_elem_of {A} (p : A → bool) (l : list A) (x : A) :
  existsb p l = false → x ∈ l → p x = false.
Proof.
  intros Hnone Hin. destruct (p x) eqn:Hp; [|done].
  by rewrite (elem_of_existsb p l x Hin Hp) in Hnone.
Qed.

(** [keep_paths H]: drop the paths on which [H : existsb p trace = true]
    is false. *)
Ltac keep_paths H := on_path H; try discriminate H; clear H.

Lemma lookup_positions {A} (p : A → bool) (l : list A) (n i : nat) (x : A) :
  l !! i = Some x → p x = true → n + i ∈ positions p l n.
Proof.
  revert n i. induction l as [|y l IH]; intros n i H Hp; [done|].
  destruct i as [|i]; cbn in *.
  - injection H as ->. rewrite Hp, Nat.add_0_r. apply list_elem_of_here.
  - replace (n + S i) with (S n + i) by lia.
    destruct (p y); [apply list_elem_of_further|]; by apply IH.
Qed.

Lemma elem_of_filter_bool {A} (p : A → bool) (l : list A) (x : A) :
  x ∈ l → p x = true → x ∈ List.filter p l.
Proof.
  rewrite !list_elem_of_In. intros Hin Hp. apply filter_In. by split.
Qed.

Ltac find_member :=
  repeat first [apply list_elem_of_here | apply list_elem_of_further].

Ltac member H :=
  repeat (apply elem_of_cons in H as [H|H]; [try discriminate H|]);
  try (by apply elem_of_nil in H).

(** [resolved H]: on a path, the options are those that [H] says were
    resolved. *)
Ltac resolved H := first [discriminate H | injection H as -> ->].

(** [locate H i p]: the position [i] of the event of kind [p] that
    [H : trace !! i = Some _] speaks of, on an explicit trace. *)
Ltac locate_by H i p Hkind :=
  let Hi := fresh "Hi" in
  pose proof (lookup_positions p _ 0 _ _ H Hkind) as Hi;
  cbn in Hi; member Hi; subst i; cbn in H.

Ltac locate H i p := locate_by H i p (eq_refl true).

(** [among H p]: the event of kind [p] that [H : _ ∈ trace] speaks of, on
    an explicit trace. *)
Ltac among H p :=
  apply (elem_of_filter_bool p) in H; [|reflexivity]; cbn in H; member H.

Ltac decided :=
  repeat match goal with
         | H : bool_decide _ = true |- _ => apply bool_decide_eq_true in H
         | H : bool_decide (_ ≠ _) = false |- _ =>
             apply bool_decide_eq_false, dec_stable in H
         | H : bool_decide _ = false |- _ => apply bool_decide_eq_false in H
         | H : negb _ = true |- _ => apply negb_true_iff in H
         | H : negb _ = false |- _ => apply negb_false_iff in H
         end.

(** ** The blobs of a manifest group *)

Section PackageFiles.
Context (empty tar zip : string) (tarContents zipContents contents : Buffer).

Lemma package_files_dom :
  dom (<[empty := contents]> (<[tar := tarContents]> (<[zip := zipContents]> ∅))
         : gmap string Buffer) =
  {[tar; zip; empty]}.
Proof.
  rewrite !dom_insert_L, dom_empty_L.
  apply set_eq; intros k. rewrite !elem_of_union, !elem_of_singleton, elem_of_empty.
  tauto.
Qed.

Lemma package_files_only k v :
  (<[empty := contents]> (<[tar := tarContents]> (<[zip := zipContents]> ∅))
     : gmap string Buffer) !! k = Some v →
  (k = tar ∧ v = tarContents) ∨ (k = zip ∧ v = zipContents) ∨
  (k = empty ∧ v = contents).
Proof.
  rewrite !lookup_insert, lookup_empty.
  repeat case_decide; intros; simplify_eq; auto.
Qed.

Lemma package_files_all k v :
  (tar = empty → tarContents = contents) →
  (zip = empty → zipContents = contents) →
  (zip = tar → zipContents = tarContents) →
  (k = tar ∧ v = tarContents) ∨ (k = zip ∧ v = zipContents) ∨
  (k = empty ∧ v = contents) →
  (<[empty := contents]> (<[tar := tarContents]> (<[zip := zipContents]> ∅))
     : gmap string Buffer) !! k = Some v.
Proof.
  rewrite !lookup_insert, lookup_empty.
  intros Hte Hze Hzt [[-> ->]|[[-> ->]|[-> ->]]];
    repeat case_decide; try done; f_equal; solve [auto | symmetry; auto].
Qed.
End PackageFiles.

Section AttestationFiles.
Context (empty digest : string) (bundle contents : Buffer).

Lemma attestation_files_dom :
  dom (<[digest := bundle]> (<[empty := contents]> ∅) : gmap string Buffer) =
  {[empty; digest]}.
Proof.
  rewrite !dom_insert_L, dom_empty_L.
  apply set_eq; intros k. rewrite !elem_of_union, !elem_of_singleton, elem_of_empty.
  tauto.
Qed.

Lemma attestation_files_only k v :
  (<[digest := bundle]> (<[empty := contents]> ∅) : gmap string Buffer) !! k =
    Some v →
  (k = empty ∧ v = contents) ∨ (k = digest ∧ v = bundle).
Proof.
  rewrite !lookup_insert, lookup_empty.
  repeat case_decide; intros; simplify_eq; auto.
Qed.

Lemma attestation_files_all k v :
  (digest = empty → bundle = contents) →
  (k = empty ∧ v = contents) ∨ (k = digest ∧ v = bundle) →
  (<[digest := bundle]> (<[empty := contents]> ∅) : gmap string Buffer) !! k =
    Some v.
Proof.
  rewrite !lookup_insert, lookup_empty.
  intros Hte [[-> ->]|[-> ->]];
    repeat case_decide; try done; f_equal; solve [auto | symmetry; auto].
Qed.
End AttestationFiles.

(** ** The file sets handed to the registry client *)

(** C7. The file set of the upload of the subject manifest holds the tar
    contents under the tar digest, the zip contents under the zip digest
    and the two bytes of the empty object under the constant
    [emptyConfigSha], and nothing else; the file set of the upload of the
    attestation manifest holds the two bytes of the empty object under
    [emptyConfigSha] and the bundle under the bundle digest, and nothing
    else.  The key of the empty configuration is the constant of the
    platform whatever its hash functions are.  ([Map.set] overwrites: each
    blob is found under its digest as soon as equal digests name equal
    contents.) *)
Theorem blob_file_sets (P : Platform) (options : PublishActionOptions) (w : World P) :
  Buffer_from "{}" = [x7b; x7d] ∧
  (∀ semverTag zipFile tarFile manifest token registry repository m files tag r,
     UploadOCIImageManifest token registry repository m files tag r ∈
       trace (publishImmutableActionVersion P options semverTag zipFile tarFile manifest w) →
     ∃ message zipContents tarContents,
       trace (publishImmutableActionVersion P options semverTag zipFile tarFile manifest w) =
         [Info message;
          ReadFileContents (path zipFile) (Normal zipContents);
          ReadFileContents (path tarFile) (Normal tarContents);
          UploadOCIImageManifest token registry repository manifest files
            (Some semverTag) r] ∧
       dom files = {[sha256 tarFile; sha256 zipFile; emptyConfigSha P]} ∧
       files !! emptyConfigSha P = Some (Buffer_from "{}") ∧
       (∀ k v, files !! k = Some v →
          (k = sha256 tarFile ∧ v = tarContents) ∨
          (k = sha256 zipFile ∧ v = zipContents) ∨
          (k = emptyConfigSha P ∧ v = Buffer_from "{}")) ∧
       ((sha256 tarFile = emptyConfigSha P → tarContents = Buffer_from "{}") →
        (sha256 zipFile = emptyConfigSha P → zipContents = Buffer_from "{}") →
        (sha256 zipFile = sha256 tarFile → zipContents = tarContents) →
        files !! sha256 tarFile = Some tarContents ∧
        files !! sha256 zipFile = Some zipContents)) ∧
  (∀ bundle bundleDigest subject attestation index token registry repository
     m files tag r,
     UploadOCIImageManifest token registry repository m files tag r ∈
       trace (publishAttestation P options bundle bundleDigest subject attestation index w) →
     m = attestation ∧ tag = None ∧
     dom files = {[emptyConfigSha P; bundleDigest]} ∧
     (∀ k v, files !! k = Some v →
        (k = emptyConfigSha P ∧ v = Buffer_from "{}") ∨
        (k = bundleDigest ∧ v = bundle)) ∧
     files !! bundleDigest = Some bundle ∧
     ((bundleDigest = emptyConfigSha P → bundle = Buffer_from "{}") →
      files !! emptyConfigSha P = Some (Buffer_from "{}"))).
Proof.
  split; [done|]. split.
  - intros semverTag zipFile tarFile manifest. explore;
      intros token registry repository m files tag r H; member H.
    all: inversion H; subst; eexists _, _, _; split; [done|].
    all: split; [apply package_files_dom|].
    all: split; [apply lookup_insert_eq|].
    all: split; [apply package_files_only|].
    all: intros Hte Hze Hzt; split; apply package_files_all; auto.
  - intros bundle bundleDigest subject attestation index. explore;
      intros token registry repository m files tag r H; member H.
    all: inversion H; subst; split; [done|]; split; [done|].
    all: split; [apply attestation_files_dom|].
    all: split; [apply attestation_files_only|].
    all: split; [apply lookup_insert_eq|].
    all: intros Hbe; apply attestation_files_all; auto.
Qed.

(** ** The request to the signing service *)

(** C9. [generateAttestation] asks for an attestation of the subject named
    [nameWithOwner + "@" + semverTag] whose digest is the manifest digest
    without its leading ["sha256:"], and, when the service answers,
    returns the bytes of the serialized bundle together with ["sha256:"]
    followed by the lowercase hexadecimal SHA-256 of exactly those bytes;
    when the service throws, so does [generateAttestation]. *)
Theorem generateAttestation_request_and_digest (P : Platform)
    (manifestDigest semverTag : string) (options : PublishActionOptions)
    (w : World P) :
  let request :=
    {| subjectName := nameWithOwner options +:+ "@" +:+ semverTag;
       subjectDigest_sha256 := removePrefix manifestDigest "sha256:";
       attest_token := token options;
       sigstore := "github";
       skipWrite := true |} in
  let outcome := generateAttestation P manifestDigest semverTag options w in
  (∀ digits, manifestDigest = "sha256:" +:+ digits →
     subjectDigest_sha256 request = digits) ∧
  (∃ message,
     trace outcome =
       [Info message; AttestProvenance request (attestProvenance P request w).1]) ∧
  match (attestProvenance P request w).1 with
  | Normal attestation =>
      let bytes := Buffer_from (bundle_json P attestation) in
      result outcome =
        Normal {| bundle := bytes;
                  bundleDigest := "sha256:" +:+ hex (SHA256 P bytes) |} ∧
      is_lower_hex (hex (SHA256 P bytes)) = true ∧
      String.length (hex (SHA256 P bytes)) = 2 * length (SHA256 P bytes)
  | Throws t => result outcome = Throws t
  end.
Proof.
  intros request outcome. split; [|split].
  - intros digits ->. apply (removePrefix_app "sha256:").
  - subst outcome. unfold_orchestrator. cbn. fold request.
    destruct (attestProvenance P request w) as [[attestation|t] w1]; cbn; eauto.
  - subst outcome. unfold_orchestrator. cbn. fold request.
    destruct (attestProvenance P request w) as [[attestation|t] w1]; cbn; [|done].
    split; [done|]. split; [apply hex_lower|apply hex_length].
Qed.

(** ** The tag of the referrer index *)

(** C3. Whenever the digest of the subject manifest is ["sha256:"]
    followed by [digits], the referrer index is pushed under the tag
    ["sha256-"] followed by the same [digits], and no colon remains when
    [digits] are hexadecimal.  [publishAttestation] takes no tag: it
    derives it from the subject manifest it is given, and [run] gives it
    the package manifest it built. *)
Theorem referrer_tag_from_subject_digest (P : Platform) (w : World P)
    (digits : string) :
  (∀ options bundle bundleDigest subject attestation index
     token registry repository m tag r,
     sha256Digest P (inl subject) = "sha256:" +:+ digits →
     UploadOCIIndexManifest token registry repository m tag r ∈
       trace (publishAttestation P options bundle bundleDigest subject attestation index w) →
     tag = "sha256-" +:+ digits ∧ (is_hex digits = true → no_colon tag = true)) ∧
  (∀ subject token registry repository m tag r,
     CreateActionPackageManifest (Normal subject) ∈ trace (run P w) →
     sha256Digest P (inl subject) = "sha256:" +:+ digits →
     UploadOCIIndexManifest token registry repository m tag r ∈ trace (run P w) →
     tag = "sha256-" +:+ digits ∧ (is_hex digits = true → no_colon tag = true)).
Proof.
  split.
  - intros options bundle bundleDigest subject attestation index.
    explore; intros token registry repository m tag r Hd H; member H.
    all: inversion H; subst; rewrite Hd, replace_colon_of_digest.
    all: split; [done|exact (hex_no_colon digits)].
  - intros subject token registry repository m tag r Hs Hd H.
    pose proof (elem_of_existsb index_upload _ _ H eq_refl) as Hp.
    explore_run P w; keep_paths Hp; on_path H; among H (@index_upload P).
    all: on_path Hs; among Hs (@package_manifest_built P); inversion Hs; subst.
    all: inversion H; subst; rewrite Hd, replace_colon_of_digest.
    all: split; [done|exact (hex_no_colon digits)].
Qed.

(** ** Validation of the ref *)

(** C8. When the resolved ref is not ["refs/tags/"] followed by a tag, or
    the tag without a single leading [v] is not a semantic version, the run
    consists of resolving the options, the two log lines and the report of
    the validation error: nothing is checked out, staged, archived, built
    or uploaded, and no output is set. *)
Theorem invalid_ref_fails_before_staging (P : Platform) (w w1 : World P)
    (options : PublishActionOptions) :
  resolvePublishActionOptions P w = (Normal options, w1) →
  (¬ (∃ tag, ref options = "refs/tags/" +:+ tag)) ∨
  (∃ tag, ref options = "refs/tags/" +:+ tag ∧
          semver_parse P (without_leading_v tag) = None) →
  ∃ message,
    run P w =
      Ran [ResolveOptions (Normal options);
           Info "Publishing action package version with options:";
           Info (serializeOptions P options);
           SetFailed message] w1 (Normal tt) ∧
    (message = "The ref " +:+ ref options +:+ " is not a valid tag reference." ∨
     ∃ tag, ref options = "refs/tags/" +:+ tag ∧
       message = tag +:+ " is not a valid semantic version tag, and so cannot be uploaded to the action package.").
Proof.
  intros Hresolve Hinvalid. unfold_orchestrator. cbn. rewrite Hresolve. cbn.
  destruct (startsWith (ref options) "refs/tags/") eqn:Hprefix; cbn.
  - apply startsWith_inv in Hprefix as [tag Href].
    destruct Hinvalid as [Hno|(tag' & Href' & Hparse)]; [destruct Hno; eauto|].
    rewrite Href' in *. rewrite replace_leading_app, replace_leading_v, Hparse.
    cbn. eexists; split; [reflexivity|]. right. by exists tag'.
  - destruct Hinvalid as [Hno|(tag & Href & Hparse)].
    + eexists; split; [reflexivity|]. by left.
    + by rewrite Href, (startsWith_app "refs/tags/") in Hprefix.
Qed.



(** ** Verification of the digest of the subject manifest *)

(** C1. Once the upload of the subject manifest has returned a digest,
    [run] compares it with the digest it computed itself.  When they
    differ the run stops there and is marked failed with a message naming
    both digests, and ['package-manifest-sha'] is not set; when they are
    equal the run ends by setting ['package-manifest-sha'] to that digest
    and reports no failure.  ['package-manifest-sha'] is only ever set to
    a digest that the registry returned for the subject manifest and that
    equals the local one. *)
Theorem subject_digest_verified (P : Platform) (w : World P) :
  (∀ i token registry repository manifest files tag published,
     trace (run P w) !! i =
       Some (UploadOCIImageManifest token registry repository manifest files
               (Some tag) (Normal published)) →
     let expected := sha256Digest P (inl manifest) in
     (published ≠ Some expected →
        trace (run P w) =
          take (S i) (trace (run P w)) ++
          [SetFailed ("Unexpected digest returned for manifest. Expected " +:+
                      expected +:+ ", got " +:+ print_digest published)] ∧
        ∀ value, SetOutput "package-manifest-sha" value ∉ trace (run P w)) ∧
     (published = Some expected →
        trace (run P w) =
          take (S i) (trace (run P w)) ++
          [SetOutput "package-manifest-sha" expected] ∧
        ∀ message, SetFailed message ∉ trace (run P w))) ∧
  (∀ value, SetOutput "package-manifest-sha" value ∈ trace (run P w) →
     ∃ token registry repository manifest files tag,
       UploadOCIImageManifest token registry repository manifest files
         (Some tag) (Normal (Some value)) ∈ trace (run P w) ∧
       value = sha256Digest P (inl manifest)).
Proof.
  split.
  - intros i token registry repository manifest files tag published H expected.
    pose proof (lookup_existsb subject_upload _ _ _ H eq_refl) as Hp.
    explore_run P w; keep_paths Hp; on_path H; locate H i (@subject_upload P).
    all: inversion H; subst; subst expected; decided; cbn.
    all: split; [intros Hne|intros Heq]; try congruence; subst; cbn.
    all: split; [done|]; intros x.
    all: first [ by apply (not_elem_of_existsb (output_named "package-manifest-sha"))
               | by apply (not_elem_of_existsb is_failure) ].
  - intros value Hin.
    pose proof (elem_of_existsb (output_named "package-manifest-sha") _ _ Hin eq_refl) as Hp.
    explore_run P w; keep_paths Hp; on_path Hin;
      among Hin (@output_named P "package-manifest-sha").
    all: inversion Hin; subst; decided; subst; cbn.
    all: eexists _, _, _, _, _, _; split; [find_member|done].
Qed.

(** ** Order of the uploads of the attestation branch *)

(** C4. In every run, an upload of the referrer index comes after an
    upload of an attestation manifest that has completed normally, and the
    index uploaded is the one built from the digest and the size of that
    attestation manifest. *)
Theorem referrer_index_after_attestation_manifest (P : Platform) (w : World P)
    (i : nat) (token registry repository : string) (index : OCIIndexManifest P)
    (tag : string) (r : completion returned_digest) :
  trace (run P w) !! i =
    Some (UploadOCIIndexManifest token registry repository index tag r) →
  ∃ j attestationManifest files digest created,
    j < i ∧
    trace (run P w) !! j =
      Some (UploadOCIImageManifest token registry repository attestationManifest
              files None (Normal digest)) ∧
    createReferrerTagManifest P (sha256Digest P (inl attestationManifest))
      (sizeInBytes P (inl attestationManifest)) created = Normal index.
Proof.
  intros H.
  pose proof (lookup_existsb index_upload _ _ _ H eq_refl) as Hp.
  explore_run P w; keep_paths Hp; on_path H; locate H i (@index_upload P).
  all: inversion H; subst; cbn.
  all: exists 14; eexists _, _, _, _.
  all: split; [lia|]; split; [reflexivity|eassumption].
Qed.

(** ** The attestation branch *)

(** Where the steps of the branch stand in a run: a step of the branch
    occurs only when [isEnterprise] is false; when it is false, a package
    manifest that was built is followed by the request of the signing
    bundle, and the package is uploaded only after every step of the
    branch has completed; when it is true, nothing is uploaded but the
    package manifest, under its version tag. *)
Lemma attestation_steps_guarded_by_flag (P : Platform) (w w1 : World P)
    (options : PublishActionOptions) :
  resolvePublishActionOptions P w = (Normal options, w1) →
  (∀ e, e ∈ trace (run P w) → attestation_step e = true →
     isEnterprise options = false) ∧
  (isEnterprise options = false →
     (∀ e, e ∈ trace (run P w) → package_manifest_built e = true →
        ∃ request r, AttestProvenance request r ∈ trace (run P w)) ∧
     (∀ e, e ∈ trace (run P w) → subject_upload e = true →
        ∃ request attestation attestationManifest index
          token registry repository files digest tag digest',
          AttestProvenance request (Normal attestation) ∈ trace (run P w) ∧
          CreateSigstoreAttestationManifest (Normal attestationManifest) ∈
            trace (run P w) ∧
          CreateReferrerTagManifest (Normal index) ∈ trace (run P w) ∧
          UploadOCIImageManifest token registry repository attestationManifest
            files None (Normal digest) ∈ trace (run P w) ∧
          UploadOCIIndexManifest token registry repository index tag
            (Normal digest') ∈ trace (run P w))) ∧
  (isEnterprise options = true →
     (∀ e, e ∈ trace (run P w) → index_upload e = false) ∧
     (∀ token registry repository manifest files tag r,
        UploadOCIImageManifest token registry repository manifest files tag r ∈
          trace (run P w) →
        (∃ version, tag = Some version) ∧
        CreateActionPackageManifest (Normal manifest) ∈ trace (run P w))).
Proof.
  intros Hresolve. split; [|split].
  - intros e Hin He.
    pose proof (elem_of_existsb attestation_step _ _ Hin He) as Hp.
    explore_run P w; keep_paths Hp; resolved Hresolve; by decided.
  - intros Hnot. split.
    + intros e Hin He.
      pose proof (elem_of_existsb package_manifest_built _ _ Hin He) as Hp.
      explore_run P w; keep_paths Hp; resolved Hresolve; decided; try congruence.
      all: on_path_goal; eexists _, _; find_member.
    + intros e Hin He.
      pose proof (elem_of_existsb subject_upload _ _ Hin He) as Hp.
      explore_run P w; keep_paths Hp; resolved Hresolve; decided; try congruence.
      all: on_path_goal; eexists _, _, _, _, _, _, _, _, _, _, _.
      all: repeat split; find_member.
  - intros Hent. split.
    + intros e Hin. destruct (index_upload e) eqn:He; [|done].
      pose proof (elem_of_existsb index_upload _ _ Hin He) as Hp.
      explore_run P w; keep_paths Hp; resolved Hresolve; decided; congruence.
    + intros token registry repository manifest files tag r Hin.
      pose proof (elem_of_existsb image_upload _ _ Hin eq_refl) as Hp.
      explore_run P w; keep_paths Hp; resolved Hresolve; decided; try congruence.
      all: on_path Hin; among Hin (@image_upload P); inversion Hin; subst.
      all: split; [by eexists|cbn; find_member].
Qed.

(** C5. The attestation branch is entered exactly when the resolved
    options are not those of an enterprise registry.  Take a run whose
    steps before the test of [isEnterprise] all complete: the options are
    resolved, the ref is a tag whose version parses, the tag is checked
    out, the files are staged and archived, and the package manifest is
    built.  The trace of [run] then starts with these nine events, and
    - when [isEnterprise] is false, it goes on with the request of the
      signing bundle for that manifest, whatever the service answers; and
      if the service answers with a bundle, the attestation manifest and
      the referrer index are built and the registry accepts the
      attestation manifest, the trace goes on with these four steps and
      with the push of the referrer index under the tag made of the digest
      of the package manifest;
    - when [isEnterprise] is true, no step of the branch occurs anywhere
      in the trace: it goes on with the reading of the zip archive, and if
      both archives are read, with the upload of the package manifest
      under its version, which is the only upload of the run.
    In any run, a step of the branch occurs only when [isEnterprise] is
    false. *)
Theorem attestation_branch_iff_not_enterprise (P : Platform)
    (w w1 w2 w3 w4 w5 w6 w7 : World P) (options : PublishActionOptions)
    (tag : string) (version : SemVer) (staged archived : string)
    (archives : Archives) (created : Date P) (manifest : OCIImageManifest P) :
  resolvePublishActionOptions P w = (Normal options, w1) →
  ref options = "refs/tags/" +:+ tag →
  semver_parse P (without_leading_v tag) = Some version →
  ensureTagAndRefCheckedOut P (ref options) (sha options) (workspaceDir options) w1 =
    (Normal tt, w2) →
  createTempDir P (runnerTempDir options) "staging" w2 = (Normal staged, w3) →
  stageActionFiles P (workspaceDir options) staged w3 = (Normal tt, w4) →
  createTempDir P (runnerTempDir options) "archives" w4 = (Normal archived, w5) →
  createArchives P staged archived w5 = (Normal archives, w6) →
  new_Date P w6 = (created, w7) →
  createActionPackageManifest P (tarFile archives) (zipFile archives)
    (nameWithOwner options) (repositoryId options) (repositoryOwnerId options)
    (sha options) (raw version) created = Normal manifest →
  let before : list (event P) :=
    [ResolveOptions (Normal options);
     Info "Publishing action package version with options:";
     Info (serializeOptions P options);
     EnsureTagAndRefCheckedOut (ref options) (sha options) (workspaceDir options)
       (Normal tt);
     CreateTempDir (runnerTempDir options) "staging" (Normal staged);
     StageActionFiles (workspaceDir options) staged (Normal tt);
     CreateTempDir (runnerTempDir options) "archives" (Normal archived);
     CreateArchives staged archived (Normal archives);
     CreateActionPackageManifest (Normal manifest)] in
  let request :=
    {| subjectName := nameWithOwner options +:+ "@" +:+ raw version;
       subjectDigest_sha256 := removePrefix (sha256Digest P (inl manifest)) "sha256:";
       attest_token := token options;
       sigstore := "github";
       skipWrite := true |} in
  (isEnterprise options = false →
     (∃ message rest,
        trace (run P w) =
          before ++
          Info message ::
          AttestProvenance request (attestProvenance P request w7).1 :: rest) ∧
     (∀ attestation w8 attestationCreated w9 attestationManifest index answer w10,
        attestProvenance P request w7 = (Normal attestation, w8) →
        new_Date P w8 = (attestationCreated, w9) →
        createSigstoreAttestationManifest P
          (Z.of_nat (length (Buffer_from (bundle_json P attestation))))
          ("sha256:" +:+ hex (SHA256 P (Buffer_from (bundle_json P attestation))))
          (sizeInBytes P (inl manifest)) (sha256Digest P (inl manifest))
          attestationCreated = Normal attestationManifest →
        createReferrerTagManifest P (sha256Digest P (inl attestationManifest))
          (sizeInBytes P (inl attestationManifest)) attestationCreated =
          Normal index →
        uploadOCIImageManifest P (token options) (containerRegistryUrl options)
          (nameWithOwner options) attestationManifest
          (<["sha256:" +:+ hex (SHA256 P (Buffer_from (bundle_json P attestation))) :=
               Buffer_from (bundle_json P attestation)]>
             (<[emptyConfigSha P := Buffer_from "{}"]> ∅))
          None w9 = (Normal answer, w10) →
        ∃ message message' message'' files rest,
          trace (run P w) =
            before ++
            [Info message;
             AttestProvenance request (Normal attestation);
             CreateSigstoreAttestationManifest (Normal attestationManifest);
             CreateReferrerTagManifest (Normal index);
             Info message';
             UploadOCIImageManifest (token options) (containerRegistryUrl options)
               (nameWithOwner options) attestationManifest files None
               (Normal answer);
             Info message'';
             UploadOCIIndexManifest (token options) (containerRegistryUrl options)
               (nameWithOwner options) index
               (String_replace (sha256Digest P (inl manifest)) ":" "-")
               (uploadOCIIndexManifest P (token options)
                  (containerRegistryUrl options) (nameWithOwner options) index
                  (String_replace (sha256Digest P (inl manifest)) ":" "-")
                  w10).1] ++ rest)) ∧
  (isEnterprise options = true →
     existsb attestation_step (trace (run P w)) = false ∧
     (∃ message rest,
        trace (run P w) =
          before ++
          Info message ::
          ReadFileContents (path (zipFile archives))
            (readFileContents P (path (zipFile archives)) w7).1 :: rest) ∧
     (∀ zipContents w8 tarContents w9,
        readFileContents P (path (zipFile archives)) w7 = (Normal zipContents, w8) →
        readFileContents P (path (tarFile archives)) w8 = (Normal tarContents, w9) →
        ∃ message rest,
          let files : gmap string Buffer :=
            <[emptyConfigSha P := Buffer_from "{}"]>
              (<[sha256 (tarFile archives) := tarContents]>
                 (<[sha256 (zipFile archives) := zipContents]> ∅)) in
          trace (run P w) =
            before ++
            [Info message;
             ReadFileContents (path (zipFile archives)) (Normal zipContents);
             ReadFileContents (path (tarFile archives)) (Normal tarContents);
             UploadOCIImageManifest (token options) (containerRegistryUrl options)
               (nameWithOwner options) manifest files (Some (raw version))
               (uploadOCIImageManifest P (token options)
                  (containerRegistryUrl options) (nameWithOwner options)
                  manifest files (Some (raw version)) w9).1] ++ rest ∧
          existsb image_upload rest = false ∧
          existsb index_upload rest = false)) ∧
  (∀ e, e ∈ trace (run P w) → attestation_step e = true →
     isEnterprise options = false).
Proof.
  intros Hresolve Href Hparse Hcheckout Hstaging Hstage Harchiving Harchive
    Hdate Hmanifest before request.
  pose proof (proj1 (attestation_steps_guarded_by_flag P w w1 options Hresolve))
    as Honly.
  split; [|split]; [| |exact Honly]; clear Honly.
  all: intros Hflag; subst before request; unfold_orchestrator; cbn.
  all: rewrite Hresolve; cbn; rewrite Href, (startsWith_app "refs/tags/"); cbn.
  all: rewrite replace_leading_app, replace_leading_v, Hparse; cbn.
  all: rewrite <-Href, Hcheckout; cbn; rewrite Hstaging; cbn.
  all: rewrite Hstage; cbn; rewrite Harchiving; cbn; rewrite Harchive; cbn.
  all: rewrite Hdate; cbn; rewrite Hmanifest; cbn; rewrite Hflag; cbn.
  - split.
    + repeat step. all: by eexists _, _.
    + intros attestation w8 attestationCreated w9 attestationManifest index
        answer w10 Hsigned Hdate' Hattestation Hindex Hupload.
      rewrite Hsigned; cbn. rewrite Hdate'; cbn. rewrite Hattestation; cbn.
      rewrite Hindex; cbn. cbn in Hupload. rewrite Hupload; cbn.
      repeat step. all: by eexists _, _, _, _, _.
  - split; [|split].
    + repeat step. all: reflexivity.
    + repeat step. all: by eexists _, _.
    + intros zipContents w8 tarContents w9 Hzip Htar.
      rewrite Hzip; cbn. rewrite Htar; cbn.
      repeat step. all: eexists _, _; split; [reflexivity|]; by split.
Qed.

(** C6, as the code has it.  When a step of the attestation branch throws
    (the signing service, the construction of the attestation manifest or
    of the referrer index, or one of their uploads), the [try] block of
    [run] throws the same value and the run stops at that step: no output
    is set and the subject manifest is not uploaded, before or after, and
    nothing follows the step but the report of the failure.  That report
    depends on the value: an [Error] marks the run failed, once, with its
    message, by the [core.setFailed] that ends the trace; a value that is
    no [Error] is dropped by the [catch] block, and the run is not marked
    failed at all.  In both cases [run] itself resolves. *)
Theorem failed_attestation_fails_run (P : Platform) (w : World P) (i : nat)
    (e : event P) (t : thrown) :
  trace (run P w) !! i = Some e →
  attestation_failure e = Some t →
  result (run_try P w) = Throws t ∧
  trace (run P w) = take (S i) (trace (run P w)) ++ reported t ∧
  result (run P w) = Normal tt ∧
  match t with
  | ErrorObject message =>
      last (trace (run P w)) = Some (SetFailed message) ∧
      List.filter is_failure (trace (run P w)) = [SetFailed message]
  | NonError _ => existsb is_failure (trace (run P w)) = false
  end ∧
  (∀ e', e' ∈ trace (run P w) → is_output e' = false) ∧
  (∀ e', e' ∈ trace (run P w) → subject_upload e' = false).
Proof.
  intros H Ht.
  assert (attestation_failed e = true) as He
    by (unfold attestation_failed; by rewrite Ht).
  pose proof (lookup_existsb attestation_failed _ _ _ H He) as Hp.
  explore_run P w; keep_paths Hp; on_path H;
    locate_by H i (@attestation_failed P) He.
  all: injection H as <-; cbn in Ht; injection Ht as Ht.
  all: first [discriminate Ht | destruct Ht]; on_path_goal.
  all: split; [done|]; split; [done|]; split; [done|]; split; [done|].
  all: split; intros e' Hin; (eapply existsb_false_elem_of; [|exact Hin]);
    reflexivity.
Qed.

(** ** The [catch] of [run] *)

Lemma run_try_reports_nothing (P : Platform) (w : World P) :
  existsb is_failure (trace (run_try P w)) = false.
Proof. explore_run P w; on_path_goal; reflexivity. Qed.

Lemma thrown_before_package_output (P : Platform) (w : World P) (t : thrown) :
  result (run_try P w) = Throws t →
  existsb (output_named "package-manifest-sha") (trace (run_try P w)) = false.
Proof.
  intros H. explore_run P w; on_path H; try discriminate H.
  all: on_path_goal; reflexivity.
Qed.

(** C10, as the code has it.  [run] never rejects, and it reports a
    failure exactly when its [try] block threw an [Error], with the message
    of that error.  When the block throws any other value, [run] resolves
    with nothing added to what the block did: no failure is reported and
    ['package-manifest-sha'] is not set; an output is present only if the
    block stopped at a failing step of [publishImmutableActionVersion], and
    it is then one of the two outputs of the attestation branch, set before
    that step. *)
Theorem run_catches_and_reports_errors_only (P : Platform) (w : World P) :
  result (run P w) = Normal tt ∧
  (∀ message,
     SetFailed message ∈ trace (run P w) ↔
     result (run_try P w) = Throws (ErrorObject message)) ∧
  (∀ v, result (run_try P w) = Throws (NonError v) →
     trace (run P w) = trace (run_try P w) ∧
     (∀ e, e ∈ trace (run P w) → is_failure e = false) ∧
     (∀ e, e ∈ trace (run P w) →
        output_named "package-manifest-sha" e = false) ∧
     (∀ name value, SetOutput name value ∈ trace (run P w) →
        (name = "attestation-manifest-sha" ∨
         name = "referrer-index-manifest-sha") ∧
        ∃ e, last (trace (run P w)) = Some e ∧
             package_publish_failure e (NonError v))).
Proof.
  split; [|split].
  - rewrite run_settles. by destruct (run_try P w) as [tr w1 [[]|t]].
  - intros message. rewrite run_settles.
    pose proof (run_try_reports_nothing P w) as Hnone.
    destruct (run_try P w) as [tr w1 [[]|[m|v]]]; cbn in *.
    + split; [|done]. intros Hin.
      by destruct (not_elem_of_existsb is_failure tr (SetFailed message) Hnone eq_refl Hin).
    + rewrite elem_of_app, list_elem_of_singleton. split.
      * intros [Hin|[= ->]]; [|done].
        by destruct (not_elem_of_existsb is_failure tr (SetFailed message) Hnone eq_refl Hin).
      * intros [= ->]. by right.
    + rewrite app_nil_r. split; [|done]. intros Hin.
      by destruct (not_elem_of_existsb is_failure tr (SetFailed message) Hnone eq_refl Hin).
  - intros v Hthrown.
    assert (trace (run P w) = trace (run_try P w)) as Hsame.
    { rewrite run_settles. destruct (run_try P w) as [tr w1 [[]|[m|v']]];
        cbn in *; try done. apply app_nil_r. }
    rewrite Hsame. split; [done|].
    split; [intros e; apply existsb_false_elem_of, run_try_reports_nothing|].
    split; [intros e; eapply existsb_false_elem_of,
              thrown_before_package_output, Hthrown|].
    clear Hsame. intros name value Hin.
    pose proof (elem_of_existsb is_output _ _ Hin eq_refl) as Hp.
    explore_run P w; keep_paths Hp; on_path Hthrown; try discriminate Hthrown.
    all: injection Hthrown as ->.
    all: on_path Hin; among Hin (@is_output P).
    all: injection Hin as -> ->; on_path_goal.
    all: (split; [by auto|]); eexists; (split; [reflexivity|]).
    all: first [left; by eexists | right; by eexists _, _, _, _, _, _].
Qed.

(** ** Runs on the concrete platforms *)

Definition package_manifest : string :=
  "{package octo/action@1.2.3 0123abc sha256:aa sha256:bb}".

Definition package_files : gmap string Buffer :=
  <["sha256:44136fa355b3678a1146ad16f7e8649e94fb4fc21fe77e8310c060f61caaff8a" :=
      Buffer_from "{}"]>
    (<["sha256:aa" := Buffer_from "/tmp/archives/archive.tar.gz"]>
       (<["sha256:bb" := Buffer_from "/tmp/archives/archive.zip"]> ∅)).

Definition attestation_files : gmap string Buffer :=
  <["sha256:63" := Buffer_from "{bundle}"]>
    (<["sha256:44136fa355b3678a1146ad16f7e8649e94fb4fc21fe77e8310c060f61caaff8a" :=
         Buffer_from "{}"]> ∅).

Definition signing_request : AttestProvenanceOptions :=
  {| subjectName := "octo/action@1.2.3";
     subjectDigest_sha256 := "f1";
     attest_token := "token";
     sigstore := "github";
     skipWrite := true |}.

(** ** Runs on the concrete platforms *)

Lemma subject_digest_verified_witness :
  let P := Demo.platform Demo.unfaithful_to_package in
  trace (run P 0) !! 12 =
    Some (UploadOCIImageManifest (P:=P) "token" "https://ghcr.io" "octo/action"
            Demo.package_manifest Demo.package_files (Some "1.2.3")
            (Normal (Some "sha256:00"))) ∧
  Some "sha256:00" ≠ Some (sha256Digest P (inl Demo.package_manifest)) ∧
  trace (run P 0) =
    take 13 (trace (run P 0)) ++
    [SetFailed "Unexpected digest returned for manifest. Expected sha256:f1, got sha256:00"] ∧
  ∀ value, SetOutput "package-manifest-sha" value ∉ trace (run P 0).
Proof.
  intros P.
  assert (trace (run P 0) !! 12 =
            Some (UploadOCIImageManifest (P:=P) "token" "https://ghcr.io" "octo/action"
                    Demo.package_manifest Demo.package_files (Some "1.2.3")
                    (Normal (Some "sha256:00")))) as Hupload
    by reflexivity.
  assert (Some "sha256:00" ≠ Some (sha256Digest P (inl Demo.package_manifest)))
    as Hdiffer by (vm_compute; discriminate).
  split; [exact Hupload|]. split; [exact Hdiffer|].
  exact (proj1 (proj1 (subject_digest_verified P 0) 12 _ _ _ _ _ _ _ Hupload)
           Hdiffer).
Defined.

Lemma referrer_tag_from_subject_digest_witness :
  let P := Demo.platform (Demo.honest "refs/tags/v1.2.3" false) in
  CreateActionPackageManifest (P:=P) (Normal Demo.package_manifest) ∈ trace (run P 0) ∧
  sha256Digest P (inl Demo.package_manifest) = "sha256:" +:+ "f1" ∧
  UploadOCIIndexManifest (P:=P) "token" "https://ghcr.io" "octo/action"
    "{index sha256:2a}" "sha256-f1" (Normal (Some "sha256:d5")) ∈
    trace (run P 0) ∧
  is_hex "f1" = true ∧
  "sha256-f1" = "sha256-" +:+ "f1" ∧
  no_colon "sha256-f1" = true.
Proof.
  intros P.
  assert (CreateActionPackageManifest (P:=P) (Normal Demo.package_manifest) ∈
            trace (run P 0)) as Hbuilt
    by (apply (list_elem_of_lookup_2 _ 8); reflexivity).
  assert (sha256Digest P (inl Demo.package_manifest) = "sha256:" +:+ "f1") as Hdigest
    by reflexivity.
  assert (UploadOCIIndexManifest (P:=P) "token" "https://ghcr.io" "octo/action"
            "{index sha256:2a}" "sha256-f1" (Normal (Some "sha256:d5")) ∈
            trace (run P 0)) as Hupload
    by (apply (list_elem_of_lookup_2 _ 16); reflexivity).
  assert (is_hex "f1" = true) as Hhex by reflexivity.
  pose proof (proj2 (referrer_tag_from_subject_digest P 0 "f1")
                _ _ _ _ _ _ _ Hbuilt Hdigest Hupload) as [Htag Hcolon].
  split; [exact Hbuilt|]. split; [exact Hdigest|]. split; [exact Hupload|].
  split; [exact Hhex|]. split; [exact Htag|exact (Hcolon Hhex)].
Defined.

Lemma referrer_index_after_attestation_manifest_witness :
  let P := Demo.platform (Demo.honest "refs/tags/v1.2.3" false) in
  trace (run P 0) !! 16 =
    Some (UploadOCIIndexManifest (P:=P) "token" "https://ghcr.io" "octo/action"
            "{index sha256:2a}" "sha256-f1" (Normal (Some "sha256:d5"))) ∧
  ∃ j attestationManifest files digest created,
    j < 16 ∧
    trace (run P 0) !! j =
      Some (UploadOCIImageManifest "token" "https://ghcr.io" "octo/action"
              attestationManifest files None (Normal digest)) ∧
    createReferrerTagManifest P (sha256Digest P (inl attestationManifest))
      (sizeInBytes P (inl attestationManifest)) created =
    Normal "{index sha256:2a}".
Proof.
  intros P.
  assert (trace (run P 0) !! 16 =
            Some (UploadOCIIndexManifest (P:=P) "token" "https://ghcr.io"
                    "octo/action" "{index sha256:2a}" "sha256-f1"
                    (Normal (Some "sha256:d5")))) as Hupload
    by reflexivity.
  split; [exact Hupload|].
  exact (referrer_index_after_attestation_manifest P 0 16 _ _ _ _ _ _ Hupload).
Defined.

Lemma attestation_branch_iff_not_enterprise_witness :
  (let P := Demo.platform (Demo.honest "refs/tags/v1.2.3" false) in
   let options := Demo.options "refs/tags/v1.2.3" false in
   let version := {| raw := "1.2.3"; major := 1; minor := 2; patch := 3 |} in
   let archives := {| tarFile := Demo.tar; zipFile := Demo.zip |} in
   isEnterprise options = false ∧
   ∃ message message' message'' files rest,
     trace (run P 0) =
       [ResolveOptions (P:=P) (Normal options);
        Info "Publishing action package version with options:";
        Info (serializeOptions P options);
        EnsureTagAndRefCheckedOut (ref options) (sha options)
          (workspaceDir options) (Normal tt);
        CreateTempDir (runnerTempDir options) "staging" (Normal "/tmp/staging");
        StageActionFiles (workspaceDir options) "/tmp/staging" (Normal tt);
        CreateTempDir (runnerTempDir options) "archives" (Normal "/tmp/archives");
        CreateArchives "/tmp/staging" "/tmp/archives" (Normal archives);
        CreateActionPackageManifest (P:=P) (Normal Demo.package_manifest)] ++
       [Info (P:=P) message;
        AttestProvenance (P:=P) Demo.signing_request (Normal "{bundle}");
        CreateSigstoreAttestationManifest (P:=P)
          (Normal "{attestation sha256:63 of sha256:f1}");
        CreateReferrerTagManifest (P:=P) (Normal "{index sha256:2a}");
        Info message';
        UploadOCIImageManifest (P:=P) (token options) (containerRegistryUrl options)
          (nameWithOwner options) "{attestation sha256:63 of sha256:f1}" files
          None (Normal (Some "sha256:2a"));
        Info message'';
        UploadOCIIndexManifest (P:=P) (token options) (containerRegistryUrl options)
          (nameWithOwner options) "{index sha256:2a}" "sha256-f1"
          (Normal (Some "sha256:d5"))] ++ rest) ∧
  (let P := Demo.platform (Demo.honest "refs/tags/v1.2.3" true) in
   let options := Demo.options "refs/tags/v1.2.3" true in
   let archives := {| tarFile := Demo.tar; zipFile := Demo.zip |} in
   isEnterprise options = true ∧
   existsb attestation_step (trace (run P 0)) = false ∧
   ∃ message rest,
     trace (run P 0) =
       [ResolveOptions (P:=P) (Normal options);
        Info "Publishing action package version with options:";
        Info (serializeOptions P options);
        EnsureTagAndRefCheckedOut (ref options) (sha options)
          (workspaceDir options) (Normal tt);
        CreateTempDir (runnerTempDir options) "staging" (Normal "/tmp/staging");
        StageActionFiles (workspaceDir options) "/tmp/staging" (Normal tt);
        CreateTempDir (runnerTempDir options) "archives" (Normal "/tmp/archives");
        CreateArchives "/tmp/staging" "/tmp/archives" (Normal archives);
        CreateActionPackageManifest (P:=P) (Normal Demo.package_manifest)] ++
       [Info (P:=P) message;
        ReadFileContents "/tmp/archives/archive.zip"
          (Normal (Buffer_from "/tmp/archives/archive.zip"));
        ReadFileContents "/tmp/archives/archive.tar.gz"
          (Normal (Buffer_from "/tmp/archives/archive.tar.gz"));
        UploadOCIImageManifest (P:=P) (token options) (containerRegistryUrl options)
          (nameWithOwner options) Demo.package_manifest Demo.package_files
          (Some "1.2.3") (Normal (Some "sha256:f1"))] ++ rest ∧
     existsb image_upload rest = false ∧
     existsb index_upload rest = false).
Proof.
  split.
  - intros P options version archives.
    assert (isEnterprise options = false) as Hflag by reflexivity.
    split; [exact Hflag|].
    exact (proj2 (proj1 (attestation_branch_iff_not_enterprise P 0 1 2 3 4 5 6 7
                           options "v1.2.3" version "/tmp/staging"
                           "/tmp/archives" archives 6 Demo.package_manifest
                           eq_refl eq_refl eq_refl eq_refl eq_refl eq_refl
                           eq_refl eq_refl eq_refl eq_refl) Hflag)
             "{bundle}" 8 8 9 "{attestation sha256:63 of sha256:f1}"
             "{index sha256:2a}" (Some "sha256:2a") 10
             eq_refl eq_refl eq_refl eq_refl eq_refl).
  - intros P options archives.
    assert (isEnterprise options = true) as Hflag by reflexivity.
    split; [exact Hflag|].
    pose proof (proj1 (proj2 (attestation_branch_iff_not_enterprise P 0 1 2 3 4 5 6 7
                                options "v1.2.3"
                                {| raw := "1.2.3"; major := 1; minor := 2; patch := 3 |}
                                "/tmp/staging" "/tmp/archives" archives 6
                                Demo.package_manifest
                                eq_refl eq_refl eq_refl eq_refl eq_refl eq_refl
                                eq_refl eq_refl eq_refl eq_refl)) Hflag)
      as (Hnone & _ & Hpublished).
    split; [exact Hnone|].
    exact (Hpublished (Buffer_from "/tmp/archives/archive.zip") 8
             (Buffer_from "/tmp/archives/archive.tar.gz") 9 eq_refl eq_refl).
Defined.

Lemma failed_attestation_fails_run_witness :
  let P := Demo.platform (Demo.signing_fails (ErrorObject "signing service unavailable")) in
  let t := ErrorObject "signing service unavailable" in
  let e := AttestProvenance (P:=P) Demo.signing_request (Throws t) in
  trace (run P 0) !! 10 = Some e ∧
  attestation_failure e = Some t ∧
  result (run_try P 0) = Throws t ∧
  trace (run P 0) =
    take 11 (trace (run P 0)) ++ [SetFailed "signing service unavailable"] ∧
  result (run P 0) = Normal tt ∧
  (last (trace (run P 0)) = Some (SetFailed "signing service unavailable") ∧
   List.filter is_failure (trace (run P 0)) =
     [SetFailed "signing service unavailable"]) ∧
  (∀ e', e' ∈ trace (run P 0) → is_output e' = false) ∧
  (∀ e', e' ∈ trace (run P 0) → subject_upload e' = false).
Proof.
  intros P t e.
  assert (trace (run P 0) !! 10 = Some e) as Hstep by reflexivity.
  assert (attestation_failure e = Some t) as Hfailed by reflexivity.
  split; [exact Hstep|]. split; [exact Hfailed|].
  exact (failed_attestation_fails_run P 0 10 e t Hstep Hfailed).
Defined.

(** C6 as stated does not hold: when the signing service rejects with a
    value that is no [Error], the attestation step fails and the run is
    not marked failed. *)
Lemma attestation_failure_not_always_reported :
  ¬ failed_attestation_marks_failure
      (Demo.platform (Demo.signing_fails (NonError "boom"))) 0.
Proof.
  intros Hclaim.
  destruct (Hclaim 10 _ (NonError "boom") eq_refl eq_refl)
    as [[message Hin] _].
  assert (existsb is_failure
            (trace (run (Demo.platform (Demo.signing_fails (NonError "boom"))) 0))
          = false) as Hnone by reflexivity.
  by pose proof (existsb_false_elem_of is_failure _ _ Hnone Hin).
Qed.

Lemma invalid_ref_fails_before_staging_witness :
  let P := Demo.platform (Demo.honest "refs/tags/vx1.2.3" true) in
  let options := Demo.options "refs/tags/vx1.2.3" true in
  resolvePublishActionOptions P 0 = (Normal options, 1) ∧
  (ref options = "refs/tags/" +:+ "vx1.2.3" ∧
   semver_parse P (without_leading_v "vx1.2.3") = None) ∧
  ∃ message,
    run P 0 =
      Ran (P:=P) [ResolveOptions (Normal options);
           Info "Publishing action package version with options:";
           Info (serializeOptions P options);
           SetFailed message] 1 (Normal tt) ∧
    (message = "The ref " +:+ ref options +:+ " is not a valid tag reference." ∨
     ∃ tag, ref options = "refs/tags/" +:+ tag ∧
       message = tag +:+ " is not a valid semantic version tag, and so cannot be uploaded to the action package.").
Proof.
  intros P options.
  assert (resolvePublishActionOptions P 0 = (Normal options, 1)) as Hresolve
    by reflexivity.
  assert (ref options = "refs/tags/" +:+ "vx1.2.3" ∧
          semver_parse P (without_leading_v "vx1.2.3") = None) as Hinvalid
    by (split; reflexivity).
  split; [exact Hresolve|]. split; [exact Hinvalid|].
  exact (invalid_ref_fails_before_staging P 0 1 options Hresolve
           (or_intror (ex_intro _ "vx1.2.3" Hinvalid))).
Defined.

Lemma generateAttestation_request_and_digest_witness :
  "sha256:f1" = "sha256:" +:+ "f1" ∧
  removePrefix "sha256:f1" "sha256:" = "f1".
Proof.
  assert ("sha256:f1" = "sha256:" +:+ "f1") as Hdigest by reflexivity.
  split; [exact Hdigest|].
  exact (proj1 (generateAttestation_request_and_digest
                  (Demo.platform (Demo.honest "refs/tags/v1.2.3" false))
                  "sha256:f1" "1.2.3" (Demo.options "refs/tags/v1.2.3" false) 0)
           "f1" Hdigest).
Defined.

Lemma blob_file_sets_witness :
  let P := Demo.platform (Demo.honest "refs/tags/v1.2.3" false) in
  let options := Demo.options "refs/tags/v1.2.3" false in
  let published :=
    publishImmutableActionVersion P options "1.2.3" Demo.zip Demo.tar
      Demo.package_manifest 0 in
  let attested :=
    publishAttestation P options (Buffer_from "{bundle}") "sha256:63"
      Demo.package_manifest "{attestation sha256:63 of sha256:f1}"
      "{index sha256:2a}" 0 in
  (UploadOCIImageManifest (P:=P) "token" "https://ghcr.io" "octo/action"
     Demo.package_manifest Demo.package_files (Some "1.2.3") (Normal (Some "sha256:f1")) ∈
     trace published ∧
   sha256 Demo.tar ≠ emptyConfigSha P ∧
   sha256 Demo.zip ≠ emptyConfigSha P ∧
   sha256 Demo.zip ≠ sha256 Demo.tar ∧
   ∃ zipContents tarContents,
     Demo.package_files !! sha256 Demo.tar = Some tarContents ∧
     Demo.package_files !! sha256 Demo.zip = Some zipContents) ∧
  (UploadOCIImageManifest (P:=P) "token" "https://ghcr.io" "octo/action"
     "{attestation sha256:63 of sha256:f1}" Demo.attestation_files None
     (Normal (Some "sha256:2a")) ∈ trace attested ∧
   "sha256:63" ≠ emptyConfigSha P ∧
   Demo.attestation_files !! emptyConfigSha P = Some (Buffer_from "{}")).
Proof.
  intros P options published attested.
  assert (sha256 Demo.tar ≠ emptyConfigSha P) as Htar by discriminate.
  assert (sha256 Demo.zip ≠ emptyConfigSha P) as Hzip by discriminate.
  assert (sha256 Demo.zip ≠ sha256 Demo.tar) as Hboth by discriminate.
  assert ("sha256:63" ≠ emptyConfigSha P) as Hbundle by discriminate.
  assert (UploadOCIImageManifest (P:=P) "token" "https://ghcr.io" "octo/action"
            Demo.package_manifest Demo.package_files (Some "1.2.3")
            (Normal (Some "sha256:f1")) ∈ trace published) as Hpackage
    by (apply (list_elem_of_lookup_2 _ 3); reflexivity).
  assert (UploadOCIImageManifest (P:=P) "token" "https://ghcr.io" "octo/action"
            "{attestation sha256:63 of sha256:f1}" Demo.attestation_files None
            (Normal (Some "sha256:2a")) ∈ trace attested) as Hattestation
    by (apply (list_elem_of_lookup_2 _ 1); reflexivity).
  split.
  - split; [exact Hpackage|]. split; [exact Htar|]. split; [exact Hzip|].
    split; [exact Hboth|].
    destruct (proj1 (proj2 (blob_file_sets P options 0))
                _ _ _ _ _ _ _ _ _ _ _ Hpackage)
      as (message & zipContents & tarContents & _ & _ & _ & _ & Hall).
    exists zipContents, tarContents.
    exact (Hall (λ H, match Htar H with end) (λ H, match Hzip H with end)
             (λ H, match Hboth H with end)).
  - split; [exact Hattestation|]. split; [exact Hbundle|].
    destruct (proj2 (proj2 (blob_file_sets P options 0))
                _ _ _ _ _ _ _ _ _ _ _ _ Hattestation)
      as (_ & _ & _ & _ & _ & Hempty).
    exact (Hempty (λ H, match Hbundle H with end)).
Defined.

Lemma run_catches_and_reports_errors_only_witness :
  let P := Demo.platform (Demo.package_upload_rejects (NonError "timeout")) in
  result (run_try P 0) = Throws (NonError "timeout") ∧
  trace (run P 0) = trace (run_try P 0) ∧
  (∀ e, e ∈ trace (run P 0) → is_failure e = false) ∧
  (∀ e, e ∈ trace (run P 0) → output_named "package-manifest-sha" e = false) ∧
  (∀ name value, SetOutput name value ∈ trace (run P 0) →
     (name = "attestation-manifest-sha" ∨
      name = "referrer-index-manifest-sha") ∧
     ∃ e, last (trace (run P 0)) = Some e ∧
          package_publish_failure e (NonError "timeout")).
Proof.
  intros P.
  assert (result (run_try P 0) = Throws (NonError "timeout")) as Hthrown
    by reflexivity.
  split; [exact Hthrown|].
  exact (proj2 (proj2 (run_catches_and_reports_errors_only P 0))
           "timeout" Hthrown).
Defined.

(** C10, as stated, fails: when the upload of the package rejects with a
    value that is no [Error] after the attestation was published, the two
    outputs of the attestation branch have been set. *)
Lemma outputs_survive_non_error_throw :
  ¬ silent_on_non_error
      (Demo.platform (Demo.package_upload_rejects (NonError "timeout"))) 0.
Proof.
  intros Hsilent.
  destruct (Hsilent "timeout" eq_refl) as (_ & _ & Hnone).
  apply (Hnone "attestation-manifest-sha" "sha256:2a").
  apply (list_elem_of_lookup_2 _ 18). reflexivity.
Qed.

(** C2, on the code.  A registry that answers the upload of the
    attestation manifest and of the referrer index with digests other than
    the local ones is not found out: [run] sets both outputs to the
    digests the registry returned, goes on to publish the package and
    reports no failure. *)
Theorem attestation_digest_mismatch_not_detected :
  let P := Demo.platform Demo.unfaithful_to_attestations in
  trace (run P 0) !! 14 =
    Some (UploadOCIImageManifest (P:=P) "token" "https://ghcr.io" "octo/action"
            "{attestation sha256:63 of sha256:f1}" Demo.attestation_files None
            (Normal (Some "sha256:00"))) ∧
  sha256Digest P (inl "{attestation sha256:63 of sha256:f1}") = "sha256:2a" ∧
  trace (run P 0) !! 16 =
    Some (UploadOCIIndexManifest (P:=P) "token" "https://ghcr.io" "octo/action"
            "{index sha256:2a}" "sha256-f1" (Normal (Some "sha256:01"))) ∧
  sha256Digest P (inr "{index sha256:2a}") = "sha256:d5" ∧
  trace (run P 0) !! 18 =
    Some (SetOutput "attestation-manifest-sha" "sha256:00") ∧
  trace (run P 0) !! 20 =
    Some (SetOutput "referrer-index-manifest-sha" "sha256:01") ∧
  last (trace (run P 0)) = Some (SetOutput "package-manifest-sha" "sha256:f1") ∧
  existsb is_failure (trace (run P 0)) = false ∧
  ¬ attestation_digests_verified P 0.
Proof.
  intros P. repeat (split; [reflexivity|]).
  intros Hverified.
  destruct (Hverified 14 "token" "https://ghcr.io" "octo/action"
              "{attestation sha256:63 of sha256:f1}" Demo.attestation_files
              "sha256:00" eq_refl) as [_ Hnone]; [discriminate|].
  apply (Hnone "sha256:00"). apply (list_elem_of_lookup_2 _ 18). reflexivity.
Qed.

(** ** More on the helpers of [main.ts] *)

Lemma startsWith_false (str prefix : string) :
  startsWith str prefix = false → ¬ ∃ rest, str = prefix +:+ rest.
Proof. intros H [rest ->]. by rewrite startsWith_app in H. Qed.

(** X1. [removePrefix] undoes the prepending of the prefix, once, and
    leaves every other string as it is: a string that is the prefix
    followed by a rest gives the rest (so a doubled prefix keeps one copy),
    and a string that does not begin with the prefix is returned
    unchanged; the empty prefix removes nothing. *)
Theorem removePrefix_spec (str prefix : string) :
  (∀ rest, str = prefix +:+ rest → removePrefix str prefix = rest) ∧
  ((¬ ∃ rest, str = prefix +:+ rest) → removePrefix str prefix = str) ∧
  removePrefix (prefix +:+ prefix +:+ str) prefix = prefix +:+ str ∧
  removePrefix str "" = str ∧
  (String.length (removePrefix str prefix) ≤ String.length str)%nat.
Proof.
  split; [intros rest ->; apply removePrefix_app|].
  split.
  { intros Hno. unfold removePrefix.
    destruct (startsWith str prefix) eqn:H; [|done].
    destruct Hno. by apply startsWith_inv. }
  split; [apply removePrefix_app|]. split; [apply (removePrefix_app "")|].
  unfold removePrefix. destruct (startsWith str prefix) eqn:H; [|done].
  apply startsWith_inv in H as [rest ->]. rewrite slice_app.
  clear. induction prefix as [|c prefix IH]; simpl; [apply le_n|lia].
Qed.

Lemma parseSemverTagFromRef_accepts (P : Platform) (opts : PublishActionOptions)
    (w : World P) (version : SemVer) :
  result (parseSemverTagFromRef P opts w) = Normal version ↔
  ∃ tag, ref opts = "refs/tags/" +:+ tag ∧
         semver_parse P (without_leading_v tag) = Some version.
Proof.
  unfold parseSemverTagFromRef.
  destruct (startsWith (ref opts) "refs/tags/") eqn:Hprefix; cbn.
  - apply startsWith_inv in Hprefix as [tag Href]. rewrite Href.
    rewrite replace_leading_app, replace_leading_v.
    assert (∀ tag', "refs/tags/" +:+ tag = "refs/tags/" +:+ tag' → tag' = tag)
      as Hsame by (intros tag' [= Heq]; exact (eq_sym Heq)).
    destruct (semver_parse P (without_leading_v tag)) as [v|] eqn:Hparse; cbn.
    + split; [intros [= <-]; by exists tag|].
      intros (tag' & Heq & Hparse'). apply Hsame in Heq as ->. congruence.
    + split; [done|].
      intros (tag' & Heq & Hparse'). apply Hsame in Heq as ->. congruence.
  - apply startsWith_false in Hprefix. split; [done|].
    intros (tag & Href & _). destruct Hprefix; eauto.
Qed.

(** X2. [parseSemverTagFromRef] calls nothing outside and logs nothing.
    It returns a version exactly when the ref is ["refs/tags/"] followed
    by a tag that [semver.parse] accepts once a single leading [v] is
    dropped, and the version is the one [semver.parse] gave; whatever it
    throws is an [Error].  A tag with a leading [v] is accepted exactly
    when the same tag without it is, with the same version. *)
Theorem parseSemverTagFromRef_spec (P : Platform) (opts : PublishActionOptions)
    (w : World P) :
  trace (parseSemverTagFromRef P opts w) = [] ∧
  world (parseSemverTagFromRef P opts w) = w ∧
  (∀ version,
     result (parseSemverTagFromRef P opts w) = Normal version ↔
     ∃ tag, ref opts = "refs/tags/" +:+ tag ∧
            semver_parse P (without_leading_v tag) = Some version) ∧
  (∀ t, result (parseSemverTagFromRef P opts w) = Throws t →
     ∃ message, t = ErrorObject message) ∧
  (∀ opts' number version,
     ref opts = "refs/tags/" +:+ "v" +:+ number →
     ref opts' = "refs/tags/" +:+ number →
     without_leading_v number = number →
     result (parseSemverTagFromRef P opts w) = Normal version ↔
     result (parseSemverTagFromRef P opts' w) = Normal version).
Proof.
  split; [|split; [|split; [|split]]].
  - unfold parseSemverTagFromRef.
    by destruct (startsWith _ _), (semver_parse _ _).
  - unfold parseSemverTagFromRef.
    by destruct (startsWith _ _), (semver_parse _ _).
  - apply parseSemverTagFromRef_accepts.
  - unfold parseSemverTagFromRef.
    destruct (startsWith _ _), (semver_parse _ _); intros t [= <-]; by eexists.
  - intros opts' number version Hv Hplain Hnumber.
    rewrite !parseSemverTagFromRef_accepts. rewrite Hv, Hplain.
    split; intros (tag & [= Heq] & Hparse).
    + exists number. split; [done|].
      change ("v" +:+ number = tag) in Heq. subst tag.
      by rewrite Hnumber.
    + exists ("v" +:+ number). split; [done|].
      change (number = tag) in Heq. subst tag.
      by rewrite Hnumber in Hparse.
Qed.

Lemma String_replace_no_colon (s : string) :
  no_colon s = true → String_replace s ":" "-" = s.
Proof.
  unfold no_colon. induction s as [|c s IH]; [done|].
  cbn. intros [Hc Hs]%andb_prop. apply negb_true_iff in Hc.
  unfold startsWith. rewrite Ascii.eqb_sym, Hc. by rewrite IH.
Qed.

Lemma String_replace_first_colon (a b : string) :
  no_colon a = true →
  String_replace (a +:+ ":" +:+ b) ":" "-" = a +:+ "-" +:+ b.
Proof.
  unfold no_colon. induction a as [|c a IH]; [by destruct b|].
  cbn. intros [Hc Hs]%andb_prop. apply negb_true_iff in Hc.
  change (String c a +:+ ":" +:+ b) with (String c (a +:+ ":" +:+ b)).
  cbn. unfold startsWith. rewrite Ascii.eqb_sym, Hc. by rewrite IH.
Qed.

(** X3. The tag of the referrer index in general: [publishAttestation]
    replaces the first colon of the digest of the subject manifest by a
    hyphen and nothing else.  A digest without a colon is used as the tag
    as it is, and colons after the first one are kept. *)
Theorem referrer_tag_replaces_first_colon_only (P : Platform)
    (options : PublishActionOptions) (bundle : Buffer) (bundleDigest : string)
    (subject attestation : OCIImageManifest P) (index : OCIIndexManifest P)
    (w : World P) (token registry repository : string)
    (m : OCIIndexManifest P) (tag : string) (r : completion returned_digest) :
  UploadOCIIndexManifest token registry repository m tag r ∈
    trace (publishAttestation P options bundle bundleDigest subject attestation
             index w) →
  (no_colon (sha256Digest P (inl subject)) = true →
     tag = sha256Digest P (inl subject)) ∧
  (∀ algorithm rest,
     sha256Digest P (inl subject) = algorithm +:+ ":" +:+ rest →
     no_colon algorithm = true →
     tag = algorithm +:+ "-" +:+ rest).
Proof.
  revert token registry repository m tag r.
  explore; intros token registry repository m tag r H; member H.
  all: inversion H; subst; split.
  all: first [ apply String_replace_no_colon
             | intros algorithm rest -> Ha; by apply String_replace_first_colon ].
Qed.

(** X4. [publishImmutableActionVersion] hands back what the registry
    client answered for the package manifest, unchanged, and throws what
    the first failing call threw, which is then its last call: at most one
    of its calls throws, it uploads at most once, and it sets no output and
    reports no failure itself. *)
Theorem publishImmutableActionVersion_outcome (P : Platform)
    (options : PublishActionOptions) (semverTag : string)
    (zipFile tarFile : FileMetadata) (manifest : OCIImageManifest P)
    (w : World P) :
  let outcome :=
    publishImmutableActionVersion P options semverTag zipFile tarFile manifest w in
  (∀ digest, result outcome = Normal digest →
     ∃ files,
       last (trace outcome) =
         Some (UploadOCIImageManifest (token options)
                 (containerRegistryUrl options) (nameWithOwner options)
                 manifest files (Some semverTag) (Normal digest))) ∧
  (∀ t, result outcome = Throws t →
     ∃ e, last (trace outcome) = Some e ∧ thrown_by e = Some t) ∧
  (length (List.filter threw (trace outcome)) ≤ 1)%nat ∧
  (length (List.filter image_upload (trace outcome)) ≤ 1)%nat ∧
  existsb is_output (trace outcome) = false ∧
  existsb is_failure (trace outcome) = false ∧
  existsb index_upload (trace outcome) = false.
Proof.
  explore.
  all: repeat match goal with c : completion _ |- _ => destruct c end; cbn.
  all: split; [intros digest; try discriminate; intros [= <-]; by eexists|].
  all: split; [intros t'; try discriminate; intros [= <-]; by eexists|].
  all: repeat split; lia.
Qed.

(** X5. [publishAttestation] returns the two digests the registry client
    answered, unchanged, when both uploads completed, and otherwise throws
    what the failing upload threw; the index is not pushed once the push of
    the attestation manifest has failed, each push is made at most once,
    and the function sets no output and reports no failure itself. *)
Theorem publishAttestation_outcome (P : Platform)
    (options : PublishActionOptions) (bundle : Buffer) (bundleDigest : string)
    (subject attestation : OCIImageManifest P) (index : OCIIndexManifest P)
    (w : World P) :
  let outcome :=
    publishAttestation P options bundle bundleDigest subject attestation index w in
  (∀ published, result outcome = Normal published →
     ∃ files tag message message',
       trace outcome =
         [Info message;
          UploadOCIImageManifest (token options) (containerRegistryUrl options)
            (nameWithOwner options) attestation files None
            (Normal (attestationSHA published));
          Info message';
          UploadOCIIndexManifest (token options) (containerRegistryUrl options)
            (nameWithOwner options) index tag
            (Normal (referrerIndexSHA published))]) ∧
  (∀ t, result outcome = Throws t →
     ∃ e, last (trace outcome) = Some e ∧ thrown_by e = Some t) ∧
  (∀ token registry repository m files tag t,
     UploadOCIImageManifest token registry repository m files tag (Throws t) ∈
       trace outcome →
     existsb index_upload (trace outcome) = false) ∧
  (length (List.filter image_upload (trace outcome)) ≤ 1)%nat ∧
  (length (List.filter index_upload (trace outcome)) ≤ 1)%nat ∧
  existsb is_output (trace outcome) = false ∧
  existsb is_failure (trace outcome) = false.
Proof.
  explore.
  all: repeat match goal with c : completion _ |- _ => destruct c end; cbn.
  all: split; [intros published; try discriminate; intros [= <-];
               by eexists _, _, _, _|].
  all: split; [intros t'; try discriminate; intros [= <-]; by eexists|].
  all: split; [intros token registry repository m files tag t' H; member H;
               try done|].
  all: repeat split; lia.
Qed.

(** ** More on [run] *)

(** X6. [run] goes no further than the first call that throws: the [try]
    block throws the very value that call threw, the call is the last
    thing the block did, and [run] adds nothing but its report of the
    failure.  No exception of a collaborator is swallowed, replaced or
    retried. *)
Theorem throwing_call_ends_run (P : Platform) (w : World P) (i : nat)
    (e : event P) (t : thrown) :
  trace (run P w) !! i = Some e →
  thrown_by e = Some t →
  result (run_try P w) = Throws t ∧
  trace (run_try P w) = take (S i) (trace (run P w)) ∧
  trace (run P w) = trace (run_try P w) ++ reported t.
Proof.
  intros H Ht.
  assert (threw e = true) as He by (unfold threw; by rewrite Ht).
  pose proof (lookup_existsb threw _ _ _ H He) as Hp.
  explore_run P w; keep_paths Hp; on_path H; locate_by H i (@threw P) He.
  all: injection H as <-; cbn in Ht; injection Ht as <-; on_path_goal.
  all: done.
Qed.

(** X7. Where a thrown value comes from.  When the [try] block of [run]
    throws, either its last call threw that value, or the value is one of
    the three errors [main.ts] makes itself: the ref is not a tag
    reference, the tag is not a semantic version, or the registry answered
    the upload of the package manifest, which is then the last call, with
    a digest other than the local one. *)
Theorem thrown_value_origin (P : Platform) (w : World P) (t : thrown) :
  result (run_try P w) = Throws t →
  (∃ e, last (trace (run_try P w)) = Some e ∧ thrown_by e = Some t) ∨
  (∃ options,
     ResolveOptions (Normal options) ∈ trace (run_try P w) ∧
     ((¬ (∃ tag, ref options = "refs/tags/" +:+ tag) ∧
       t = ErrorObject
             ("The ref " +:+ ref options +:+ " is not a valid tag reference.")) ∨
      (∃ tag, ref options = "refs/tags/" +:+ tag ∧
         semver_parse P (without_leading_v tag) = None ∧
         t = ErrorObject
               (tag +:+ " is not a valid semantic version tag, and so cannot be uploaded to the action package.")))) ∨
  (∃ token registry repository manifest files tag published,
     last (trace (run_try P w)) =
       Some (UploadOCIImageManifest token registry repository manifest files
               (Some tag) (Normal published)) ∧
     published ≠ Some (sha256Digest P (inl manifest)) ∧
     t = ErrorObject
           ("Unexpected digest returned for manifest. Expected " +:+
            sha256Digest P (inl manifest) +:+ ", got " +:+
            print_digest published)).
Proof.
  intros H. explore_run P w; on_path H; try discriminate H.
  all: injection H as <-; on_path_goal; decided.
  all: first
    [ left; eexists; split; reflexivity
    | right; right; eexists _, _, _, _, _, _, _;
      split; [reflexivity|]; split; [congruence|reflexivity]
    | right; left; eexists; split; [find_member|];
      left; split; [by apply startsWith_false|reflexivity]
    | right; left; eexists; split; [find_member|]; right;
      match goal with
      | Hs : startsWith _ _ = true |- _ =>
          apply startsWith_inv in Hs as [tag Href]; exists tag;
          rewrite Href in *;
          rewrite replace_leading_app, replace_leading_v in *; done
      end ].
Qed.

Ltac units := repeat match goal with u : unit |- _ => destruct u end.

(** X8. What is archived is what was staged from the checked-out tag.
    Files are staged only after [ensureTagAndRefCheckedOut] has completed
    for the resolved ref and commit in the workspace, and into the
    temporary directory made for staging; archives are created only after
    that staging has completed, from that directory. *)
Theorem archives_from_staged_checkout (P : Platform) (w : World P) :
  (∀ i src dst r,
     trace (run P w) !! i = Some (StageActionFiles src dst r) →
     ∃ options,
       trace (run P w) !! 0 = Some (ResolveOptions (Normal options)) ∧
       trace (run P w) !! 3 =
         Some (EnsureTagAndRefCheckedOut (ref options) (sha options)
                 (workspaceDir options) (Normal tt)) ∧
       trace (run P w) !! 4 =
         Some (CreateTempDir (runnerTempDir options) "staging" (Normal dst)) ∧
       src = workspaceDir options ∧ i = 5) ∧
  (∀ i src dst r,
     trace (run P w) !! i = Some (CreateArchives src dst r) →
     ∃ options,
       trace (run P w) !! 0 = Some (ResolveOptions (Normal options)) ∧
       trace (run P w) !! 5 =
         Some (StageActionFiles (workspaceDir options) src (Normal tt)) ∧
       trace (run P w) !! 6 =
         Some (CreateTempDir (runnerTempDir options) "archives" (Normal dst)) ∧
       i = 7).
Proof.
  split.
  - intros i src dst r H.
    pose proof (lookup_existsb
                  (λ e, match e with StageActionFiles _ _ _ => true | _ => false end)
                  _ _ _ H eq_refl) as Hp.
    explore_run P w; keep_paths Hp; on_path H.
    all: locate H i (λ e : event P,
                       match e with StageActionFiles _ _ _ => true | _ => false end).
    all: injection H as <- <- <-; on_path_goal; units; by eexists.
  - intros i src dst r H.
    pose proof (lookup_existsb
                  (λ e, match e with CreateArchives _ _ _ => true | _ => false end)
                  _ _ _ H eq_refl) as Hp.
    explore_run P w; keep_paths Hp; on_path H.
    all: locate H i (λ e : event P,
                       match e with CreateArchives _ _ _ => true | _ => false end).
    all: injection H as <- <- <-; on_path_goal; units; by eexists.
Qed.

(** X9. One version and one manifest throughout.  The package manifest is
    built from the archives [createArchives] returned, the resolved
    repository and commit, and the raw string of the version parsed from
    the tag.  That same raw string, not the tag, is the tag of the upload
    of the package and the version in the subject name of the attestation;
    the manifest uploaded is the manifest built, and the digest attested
    is the digest of that manifest without its ["sha256:"]. *)
Theorem one_version_one_manifest (P : Platform) (w : World P) (i : nat)
    (r : completion (OCIImageManifest P)) :
  trace (run P w) !! i = Some (CreateActionPackageManifest r) →
  ∃ options tag version src dst archives created,
    ResolveOptions (Normal options) ∈ trace (run P w) ∧
    ref options = "refs/tags/" +:+ tag ∧
    semver_parse P (without_leading_v tag) = Some version ∧
    CreateArchives src dst (Normal archives) ∈ trace (run P w) ∧
    r = createActionPackageManifest P (tarFile archives) (zipFile archives)
          (nameWithOwner options) (repositoryId options)
          (repositoryOwnerId options) (sha options) (raw version) created ∧
    (∀ credential registry repository m files t r',
       UploadOCIImageManifest credential registry repository m files (Some t) r' ∈
         trace (run P w) →
       t = raw version ∧ r = Normal m ∧ credential = token options) ∧
    (∀ request r',
       AttestProvenance request r' ∈ trace (run P w) →
       subjectName request = nameWithOwner options +:+ "@" +:+ raw version ∧
       attest_token request = token options ∧
       ∃ m, r = Normal m ∧
            subjectDigest_sha256 request =
              removePrefix (sha256Digest P (inl m)) "sha256:").
Proof.
  intros H.
  pose proof (lookup_existsb
                (λ e, match e with CreateActionPackageManifest _ => true | _ => false end)
                _ _ _ H eq_refl) as Hp.
  explore_run P w; keep_paths Hp; on_path H.
  all: locate H i (λ e : event P,
                     match e with CreateActionPackageManifest _ => true | _ => false end).
  all: injection H as <-; decided.
  all: match goal with
       | Hs : startsWith _ _ = true |- _ =>
           apply startsWith_inv in Hs as [tag Href]; rewrite Href in *;
           rewrite replace_leading_app, replace_leading_v in *
       end.
  all: eexists _, tag, _, _, _, _, _.
  all: split; [on_path_goal; find_member|].
  all: split; [done|]. all: split; [eassumption|].
  all: split; [on_path_goal; find_member|].
  all: split; [symmetry; eassumption|].
  all: split.
  all: try (intros credential registry repository m files t r' Hin; on_path Hin;
            among Hin (@subject_upload P); by inversion Hin).
  all: intros request r' Hin; on_path Hin;
       among Hin (λ e : event P,
                    match e with AttestProvenance _ _ => true | _ => false end).
  all: inversion Hin; subst; cbn; split; [done|]; split; [done|]; by eexists.
Qed.

(** X10. The attestation manifest describes the bundle that goes with it.
    The manifest uploaded without a tag was built from the length and the
    digest of the bundle bytes [generateAttestation] returned and from the
    size and digest of the package manifest; those bytes are in the file
    set of the upload under that digest; and the referrer index pushed
    afterwards was built with the same creation time. *)
Theorem attestation_manifest_inputs (P : Platform) (w : World P) (i : nat)
    (credential registry repository : string)
    (attestationManifest : OCIImageManifest P) (files : gmap string Buffer)
    (r : completion returned_digest) :
  trace (run P w) !! i =
    Some (UploadOCIImageManifest credential registry repository
            attestationManifest files None r) →
  ∃ request attestation manifest created,
    AttestProvenance request (Normal attestation) ∈ trace (run P w) ∧
    CreateActionPackageManifest (Normal manifest) ∈ trace (run P w) ∧
    createSigstoreAttestationManifest P
      (Z.of_nat (length (Buffer_from (bundle_json P attestation))))
      ("sha256:" +:+ hex (SHA256 P (Buffer_from (bundle_json P attestation))))
      (sizeInBytes P (inl manifest)) (sha256Digest P (inl manifest)) created =
      Normal attestationManifest ∧
    files !! ("sha256:" +:+ hex (SHA256 P (Buffer_from (bundle_json P attestation)))) =
      Some (Buffer_from (bundle_json P attestation)) ∧
    (∀ credential' registry' repository' index tag r',
       UploadOCIIndexManifest credential' registry' repository' index tag r' ∈
         trace (run P w) →
       createReferrerTagManifest P (sha256Digest P (inl attestationManifest))
         (sizeInBytes P (inl attestationManifest)) created = Normal index).
Proof.
  intros H.
  pose proof (lookup_existsb attestation_step _ _ _ H eq_refl) as Hp.
  explore_run P w; keep_paths Hp; on_path H.
  all: locate H i (λ e : event P,
                     match e with
                     | UploadOCIImageManifest _ _ _ _ _ None _ => true
                     | _ => false
                     end).
  all: inversion H; subst.
  all: eexists _, _, _, _.
  all: split; [cbn; find_member|]. all: split; [cbn; find_member|].
  all: split; [eassumption|]. all: split; [apply lookup_insert_eq|].
  all: intros credential' registry' repository' index tag r' Hin; cbn in Hin.
  all: among Hin (@index_upload P); by inversion Hin.
Qed.

(** X11. The two outputs of the attestation branch are the answers of the
    registry: ['attestation-manifest-sha'] is only ever set to the digest
    returned for the upload of the attestation manifest and
    ['referrer-index-manifest-sha'] to the one returned for the referrer
    index.  Once both uploads have completed, each output is set when the
    registry returned a digest, and is left unset when it returned none. *)
Theorem attestation_outputs_are_registry_answers (P : Platform) (w : World P) :
  (∀ value, SetOutput "attestation-manifest-sha" value ∈ trace (run P w) →
     ∃ credential registry repository manifest files,
       UploadOCIImageManifest credential registry repository manifest files
         None (Normal (Some value)) ∈ trace (run P w)) ∧
  (∀ value, SetOutput "referrer-index-manifest-sha" value ∈ trace (run P w) →
     ∃ credential registry repository index tag,
       UploadOCIIndexManifest credential registry repository index tag
         (Normal (Some value)) ∈ trace (run P w)) ∧
  (∀ i credential registry repository index tag answer',
     trace (run P w) !! i =
       Some (UploadOCIIndexManifest credential registry repository index tag
               (Normal answer')) →
     ∃ manifest files answer,
       UploadOCIImageManifest credential registry repository manifest files
         None (Normal answer) ∈ trace (run P w) ∧
       match answer with
       | Some digest =>
           SetOutput "attestation-manifest-sha" digest ∈ trace (run P w)
       | None =>
           existsb (output_named "attestation-manifest-sha") (trace (run P w)) =
             false
       end ∧
       match answer' with
       | Some digest =>
           SetOutput "referrer-index-manifest-sha" digest ∈ trace (run P w)
       | None =>
           existsb (output_named "referrer-index-manifest-sha")
             (trace (run P w)) = false
       end).
Proof.
  split; [|split].
  - intros value Hin.
    pose proof (elem_of_existsb (output_named "attestation-manifest-sha")
                  _ _ Hin eq_refl) as Hp.
    explore_run P w; keep_paths Hp; on_path Hin;
      among Hin (@output_named P "attestation-manifest-sha").
    all: injection Hin as ->; on_path_goal; eexists _, _, _, _, _; find_member.
  - intros value Hin.
    pose proof (elem_of_existsb (output_named "referrer-index-manifest-sha")
                  _ _ Hin eq_refl) as Hp.
    explore_run P w; keep_paths Hp; on_path Hin;
      among Hin (@output_named P "referrer-index-manifest-sha").
    all: injection Hin as ->; on_path_goal; eexists _, _, _, _, _; find_member.
  - intros i credential registry repository index tag answer' H.
    pose proof (lookup_existsb index_upload _ _ _ H eq_refl) as Hp.
    explore_run P w; keep_paths Hp; on_path H; locate H i (@index_upload P).
    all: inversion H; subst; cbn.
    all: eexists _, _, _; split; [find_member|].
    all: split; first [reflexivity | find_member].
Qed.

(** X12. The blobs of the package are the archives that were made.  The
    file set uploaded with the package manifest holds, under the digests
    of the zip and tar files [createArchives] returned, the contents read
    from the paths of those same files, next to the empty configuration. *)
Theorem package_blobs_from_archives (P : Platform) (w : World P) (i : nat)
    (credential registry repository : string) (manifest : OCIImageManifest P)
    (files : gmap string Buffer) (tag : string)
    (r : completion returned_digest) :
  trace (run P w) !! i =
    Some (UploadOCIImageManifest credential registry repository manifest files
            (Some tag) r) →
  ∃ src dst archives zipContents tarContents,
    CreateArchives src dst (Normal archives) ∈ trace (run P w) ∧
    trace (run P w) !! (i - 2) =
      Some (ReadFileContents (path (zipFile archives)) (Normal zipContents)) ∧
    trace (run P w) !! (i - 1) =
      Some (ReadFileContents (path (tarFile archives)) (Normal tarContents)) ∧
    files =
      <[emptyConfigSha P := Buffer_from "{}"]>
        (<[sha256 (tarFile archives) := tarContents]>
           (<[sha256 (zipFile archives) := zipContents]> ∅)).
Proof.
  intros H.
  pose proof (lookup_existsb subject_upload _ _ _ H eq_refl) as Hp.
  explore_run P w; keep_paths Hp; on_path H; locate H i (@subject_upload P).
  all: inversion H; subst; cbn.
  all: eexists _, _, _, _, _; split; [find_member|]; done.
Qed.

(** X13. What [run] reports, it reports once.  A failure is reported at
    most once and is then the last thing [run] does; each of the three
    outputs is set at most once and no other output exists;
    ['package-manifest-sha'] is set exactly when the [try] block completes
    without throwing, and never in a run that reports a failure. *)
Theorem run_reports_once (P : Platform) (w : World P) :
  (length (List.filter is_failure (trace (run P w))) ≤ 1)%nat ∧
  (∀ message, SetFailed message ∈ trace (run P w) →
     last (trace (run P w)) = Some (SetFailed message)) ∧
  (length (List.filter (output_named "attestation-manifest-sha")
             (trace (run P w))) ≤ 1)%nat ∧
  (length (List.filter (output_named "referrer-index-manifest-sha")
             (trace (run P w))) ≤ 1)%nat ∧
  (length (List.filter (output_named "package-manifest-sha")
             (trace (run P w))) ≤ 1)%nat ∧
  (∀ name value, SetOutput name value ∈ trace (run P w) →
     name = "attestation-manifest-sha" ∨
     name = "referrer-index-manifest-sha" ∨
     name = "package-manifest-sha") ∧
  (existsb (output_named "package-manifest-sha") (trace (run P w)) = true ↔
   result (run_try P w) = Normal tt) ∧
  (existsb is_failure (trace (run P w)) = true →
   existsb (output_named "package-manifest-sha") (trace (run P w)) = false).
Proof.
  explore_run P w.
  all: split; [on_path_goal; lia|].
  all: split; [intros reason Hin; on_path Hin; among Hin (@is_failure P);
               injection Hin as ->; by on_path_goal|].
  all: split; [on_path_goal; lia|].
  all: split; [on_path_goal; lia|].
  all: split; [on_path_goal; lia|].
  all: split; [intros name digest Hin; on_path Hin; among Hin (@is_output P);
               injection Hin as -> _; auto|].
  all: on_path_goal; split; [split|]; intros; first [done | discriminate].
Qed.

(** ** More runs on the concrete platforms *)

Lemma removePrefix_spec_witness :
  "sha256:f1" = "sha256:" +:+ "f1" ∧
  removePrefix "sha256:f1" "sha256:" = "f1" ∧
  (¬ ∃ rest, "f1" = "sha256:" +:+ rest) ∧
  removePrefix "f1" "sha256:" = "f1".
Proof.
  assert ("sha256:f1" = "sha256:" +:+ "f1") as Hprefixed by reflexivity.
  assert (¬ ∃ rest, "f1" = "sha256:" +:+ rest) as Hplain
    by (intros [rest Heq]; discriminate Heq).
  split; [exact Hprefixed|].
  split; [exact (proj1 (removePrefix_spec "sha256:f1" "sha256:") "f1" Hprefixed)|].
  split; [exact Hplain|].
  exact (proj1 (proj2 (removePrefix_spec "f1" "sha256:")) Hplain).
Defined.

Lemma parseSemverTagFromRef_spec_witness :
  let P := Demo.platform (Demo.honest "refs/tags/v1.2.3" true) in
  let opts := Demo.options "refs/tags/v1.2.3" true in
  let opts' := Demo.options "refs/tags/1.2.3" true in
  let version := {| raw := "1.2.3"; major := 1; minor := 2; patch := 3 |} in
  ref opts = "refs/tags/" +:+ "v" +:+ "1.2.3" ∧
  ref opts' = "refs/tags/" +:+ "1.2.3" ∧
  without_leading_v "1.2.3" = "1.2.3" ∧
  result (parseSemverTagFromRef P opts' 0) = Normal version ∧
  result (parseSemverTagFromRef P opts 0) = Normal version.
Proof.
  intros P opts opts' version.
  assert (ref opts = "refs/tags/" +:+ "v" +:+ "1.2.3") as Hv by reflexivity.
  assert (ref opts' = "refs/tags/" +:+ "1.2.3") as Hplain by reflexivity.
  assert (without_leading_v "1.2.3" = "1.2.3") as Hnumber by reflexivity.
  assert (result (parseSemverTagFromRef P opts' 0) = Normal version) as Hparsed
    by reflexivity.
  split; [exact Hv|]. split; [exact Hplain|]. split; [exact Hnumber|].
  split; [exact Hparsed|].
  exact (proj2 (proj2 (proj2 (proj2 (proj2 (parseSemverTagFromRef_spec P opts 0))))
                  opts' "1.2.3" version Hv Hplain Hnumber) Hparsed).
Defined.

Lemma referrer_tag_replaces_first_colon_only_witness :
  let P := Demo.platform (Demo.honest "refs/tags/v1.2.3" false) in
  let attested :=
    publishAttestation P (Demo.options "refs/tags/v1.2.3" false)
      (Buffer_from "{bundle}") "sha256:63" Demo.package_manifest
      "{attestation sha256:63 of sha256:f1}" "{index sha256:2a}" 0 in
  UploadOCIIndexManifest (P:=P) "token" "https://ghcr.io" "octo/action"
    "{index sha256:2a}" "sha256-f1" (Normal (Some "sha256:d5")) ∈
    trace attested ∧
  sha256Digest P (inl Demo.package_manifest) = "sha256" +:+ ":" +:+ "f1" ∧
  no_colon "sha256" = true ∧
  "sha256-f1" = "sha256" +:+ "-" +:+ "f1".
Proof.
  intros P attested.
  assert (UploadOCIIndexManifest (P:=P) "token" "https://ghcr.io" "octo/action"
            "{index sha256:2a}" "sha256-f1" (Normal (Some "sha256:d5")) ∈
            trace attested) as Hupload
    by (apply (list_elem_of_lookup_2 _ 3); reflexivity).
  assert (sha256Digest P (inl Demo.package_manifest) = "sha256" +:+ ":" +:+ "f1")
    as Hdigest by reflexivity.
  assert (no_colon "sha256" = true) as Halgorithm by reflexivity.
  split; [exact Hupload|]. split; [exact Hdigest|]. split; [exact Halgorithm|].
  exact (proj2 (referrer_tag_replaces_first_colon_only P _ _ _ _ _ _ 0
                  _ _ _ _ _ _ Hupload) "sha256" "f1" Hdigest Halgorithm).
Defined.

Lemma publishImmutableActionVersion_outcome_witness :
  let P := Demo.platform (Demo.honest "refs/tags/v1.2.3" true) in
  let options := Demo.options "refs/tags/v1.2.3" true in
  let outcome :=
    publishImmutableActionVersion P options "1.2.3" Demo.zip Demo.tar
      Demo.package_manifest 0 in
  result outcome = Normal (Some "sha256:f1") ∧
  ∃ files,
    last (trace outcome) =
      Some (UploadOCIImageManifest (P:=P) (token options)
              (containerRegistryUrl options) (nameWithOwner options)
              Demo.package_manifest files (Some "1.2.3")
              (Normal (Some "sha256:f1"))).
Proof.
  intros P options outcome.
  assert (result outcome = Normal (Some "sha256:f1")) as Hanswer by reflexivity.
  split; [exact Hanswer|].
  exact (proj1 (publishImmutableActionVersion_outcome P options "1.2.3"
                  Demo.zip Demo.tar Demo.package_manifest 0) _ Hanswer).
Defined.

Lemma publishAttestation_outcome_witness :
  let P := Demo.platform (Demo.honest "refs/tags/v1.2.3" false) in
  let options := Demo.options "refs/tags/v1.2.3" false in
  let outcome :=
    publishAttestation P options (Buffer_from "{bundle}") "sha256:63"
      Demo.package_manifest "{attestation sha256:63 of sha256:f1}"
      "{index sha256:2a}" 0 in
  let published :=
    {| attestationSHA := Some "sha256:2a"; referrerIndexSHA := Some "sha256:d5" |} in
  result outcome = Normal published ∧
  ∃ files tag message message',
    trace outcome =
      [Info message;
       UploadOCIImageManifest (P:=P) (token options) (containerRegistryUrl options)
         (nameWithOwner options) "{attestation sha256:63 of sha256:f1}" files
         None (Normal (attestationSHA published));
       Info message';
       UploadOCIIndexManifest (P:=P) (token options) (containerRegistryUrl options)
         (nameWithOwner options) "{index sha256:2a}" tag
         (Normal (referrerIndexSHA published))].
Proof.
  intros P options outcome published.
  assert (result outcome = Normal published) as Hanswer by reflexivity.
  split; [exact Hanswer|].
  exact (proj1 (publishAttestation_outcome P options (Buffer_from "{bundle}")
                  "sha256:63" Demo.package_manifest
                  "{attestation sha256:63 of sha256:f1}" "{index sha256:2a}" 0)
           published Hanswer).
Defined.

Lemma throwing_call_ends_run_witness :
  let P := Demo.platform (Demo.package_upload_rejects (ErrorObject "denied")) in
  let t := ErrorObject "denied" in
  let e :=
    UploadOCIImageManifest (P:=P) "token" "https://ghcr.io" "octo/action"
      Demo.package_manifest Demo.package_files (Some "1.2.3") (Throws t) in
  trace (run P 0) !! 24 = Some e ∧
  thrown_by e = Some t ∧
  result (run_try P 0) = Throws t ∧
  trace (run_try P 0) = take 25 (trace (run P 0)) ∧
  trace (run P 0) = trace (run_try P 0) ++ [SetFailed "denied"].
Proof.
  intros P t e.
  assert (trace (run P 0) !! 24 = Some e) as Hcall by reflexivity.
  assert (thrown_by e = Some t) as Hthrown by reflexivity.
  split; [exact Hcall|]. split; [exact Hthrown|].
  exact (throwing_call_ends_run P 0 24 e t Hcall Hthrown).
Defined.

Lemma thrown_value_origin_witness :
  let P := Demo.platform Demo.unfaithful_to_package in
  let t :=
    ErrorObject
      "Unexpected digest returned for manifest. Expected sha256:f1, got sha256:00" in
  result (run_try P 0) = Throws t ∧
  ((∃ e, last (trace (run_try P 0)) = Some e ∧ thrown_by e = Some t) ∨
   (∃ options,
      ResolveOptions (Normal options) ∈ trace (run_try P 0) ∧
      ((¬ (∃ tag, ref options = "refs/tags/" +:+ tag) ∧
        t = ErrorObject
              ("The ref " +:+ ref options +:+ " is not a valid tag reference.")) ∨
       (∃ tag, ref options = "refs/tags/" +:+ tag ∧
          semver_parse P (without_leading_v tag) = None ∧
          t = ErrorObject
                (tag +:+ " is not a valid semantic version tag, and so cannot be uploaded to the action package.")))) ∨
   (∃ credential registry repository manifest files tag published,
      last (trace (run_try P 0)) =
        Some (UploadOCIImageManifest (P:=P) credential registry repository
                manifest files (Some tag) (Normal published)) ∧
      published ≠ Some (sha256Digest P (inl manifest)) ∧
      t = ErrorObject
            ("Unexpected digest returned for manifest. Expected " +:+
             sha256Digest P (inl manifest) +:+ ", got " +:+
             print_digest published))).
Proof.
  intros P t.
  assert (result (run_try P 0) = Throws t) as Hthrown by reflexivity.
  split; [exact Hthrown|].
  exact (thrown_value_origin P 0 t Hthrown).
Defined.

Lemma archives_from_staged_checkout_witness :
  let P := Demo.platform (Demo.honest "refs/tags/v1.2.3" true) in
  let archives := {| tarFile := Demo.tar; zipFile := Demo.zip |} in
  trace (run P 0) !! 7 =
    Some (CreateArchives "/tmp/staging" "/tmp/archives" (Normal archives)) ∧
  ∃ options,
    trace (run P 0) !! 0 = Some (ResolveOptions (Normal options)) ∧
    trace (run P 0) !! 5 =
      Some (StageActionFiles (workspaceDir options) "/tmp/staging" (Normal tt)) ∧
    trace (run P 0) !! 6 =
      Some (CreateTempDir (runnerTempDir options) "archives"
              (Normal "/tmp/archives")) ∧
    7 = 7.
Proof.
  intros P archives.
  assert (trace (run P 0) !! 7 =
            Some (CreateArchives "/tmp/staging" "/tmp/archives" (Normal archives)))
    as Harchived by reflexivity.
  split; [exact Harchived|].
  exact (proj2 (archives_from_staged_checkout P 0) 7 _ _ _ Harchived).
Defined.

Lemma package_blobs_from_archives_witness :
  let P := Demo.platform (Demo.honest "refs/tags/v1.2.3" true) in
  trace (run P 0) !! 12 =
    Some (UploadOCIImageManifest (P:=P) "token" "https://ghcr.io" "octo/action"
            Demo.package_manifest Demo.package_files (Some "1.2.3")
            (Normal (Some "sha256:f1"))) ∧
  ∃ src dst archives zipContents tarContents,
    CreateArchives src dst (Normal archives) ∈ trace (run P 0) ∧
    trace (run P 0) !! (12 - 2) =
      Some (ReadFileContents (path (zipFile archives)) (Normal zipContents)) ∧
    trace (run P 0) !! (12 - 1) =
      Some (ReadFileContents (path (tarFile archives)) (Normal tarContents)) ∧
    Demo.package_files =
      <[emptyConfigSha P := Buffer_from "{}"]>
        (<[sha256 (tarFile archives) := tarContents]>
           (<[sha256 (zipFile archives) := zipContents]> ∅)).
Proof.
  intros P.
  assert (trace (run P 0) !! 12 =
            Some (UploadOCIImageManifest (P:=P) "token" "https://ghcr.io"
                    "octo/action" Demo.package_manifest Demo.package_files
                    (Some "1.2.3") (Normal (Some "sha256:f1")))) as Hupload
    by reflexivity.
  split; [exact Hupload|].
  exact (package_blobs_from_archives P 0 12 _ _ _ _ _ _ _ Hupload).
Defined.

Lemma run_reports_once_witness :
  let P := Demo.platform Demo.unfaithful_to_package in
  let reason :=
    "Unexpected digest returned for manifest. Expected sha256:f1, got sha256:00" in
  SetFailed reason ∈ trace (run P 0) ∧
  last (trace (run P 0)) = Some (SetFailed reason) ∧
  existsb is_failure (trace (run P 0)) = true ∧
  existsb (output_named "package-manifest-sha") (trace (run P 0)) = false.
Proof.
  intros P reason.
  assert (SetFailed reason ∈ trace (run P 0)) as Hreported
    by (apply (list_elem_of_lookup_2 _ 13); reflexivity).
  assert (existsb is_failure (trace (run P 0)) = true) as Hfailed
    by reflexivity.
  split; [exact Hreported|].
  split; [exact (proj1 (proj2 (run_reports_once P 0)) reason Hreported)|].
  split; [exact Hfailed|].
  exact (proj2 (proj2 (proj2 (proj2 (proj2 (proj2 (proj2 (run_reports_once P 0)))))))
           Hfailed).
Defined.

Lemma one_version_one_manifest_witness :
  let P := Demo.platform (Demo.honest "refs/tags/v1.2.3" false) in
  let r : completion (OCIImageManifest P) := Normal Demo.package_manifest in
  trace (run P 0) !! 8 = Some (CreateActionPackageManifest r) ∧
  ∃ options tag version src dst archives created,
    ResolveOptions (Normal options) ∈ trace (run P 0) ∧
    ref options = "refs/tags/" +:+ tag ∧
    semver_parse P (without_leading_v tag) = Some version ∧
    CreateArchives src dst (Normal archives) ∈ trace (run P 0) ∧
    r = createActionPackageManifest P (tarFile archives) (zipFile archives)
          (nameWithOwner options) (repositoryId options)
          (repositoryOwnerId options) (sha options) (raw version) created ∧
    (∀ credential registry repository m files t r',
       UploadOCIImageManifest credential registry repository m files (Some t) r' ∈
         trace (run P 0) →
       t = raw version ∧ r = Normal m ∧ credential = token options) ∧
    (∀ request r',
       AttestProvenance request r' ∈ trace (run P 0) →
       subjectName request = nameWithOwner options +:+ "@" +:+ raw version ∧
       attest_token request = token options ∧
       ∃ m, r = Normal m ∧
            subjectDigest_sha256 request =
              removePrefix (sha256Digest P (inl m)) "sha256:").
Proof.
  intros P r.
  assert (trace (run P 0) !! 8 = Some (CreateActionPackageManifest r)) as Hbuilt
    by reflexivity.
  split; [exact Hbuilt|].
  exact (one_version_one_manifest P 0 8 r Hbuilt).
Defined.

Lemma attestation_manifest_inputs_witness :
  let P := Demo.platform (Demo.honest "refs/tags/v1.2.3" false) in
  trace (run P 0) !! 14 =
    Some (UploadOCIImageManifest (P:=P) "token" "https://ghcr.io" "octo/action"
            "{attestation sha256:63 of sha256:f1}" Demo.attestation_files None
            (Normal (Some "sha256:2a"))) ∧
  ∃ request attestation manifest created,
    AttestProvenance request (Normal attestation) ∈ trace (run P 0) ∧
    CreateActionPackageManifest (Normal manifest) ∈ trace (run P 0) ∧
    createSigstoreAttestationManifest P
      (Z.of_nat (length (Buffer_from (bundle_json P attestation))))
      ("sha256:" +:+ hex (SHA256 P (Buffer_from (bundle_json P attestation))))
      (sizeInBytes P (inl manifest)) (sha256Digest P (inl manifest)) created =
      Normal "{attestation sha256:63 of sha256:f1}" ∧
    Demo.attestation_files !!
      ("sha256:" +:+ hex (SHA256 P (Buffer_from (bundle_json P attestation)))) =
      Some (Buffer_from (bundle_json P attestation)) ∧
    (∀ credential' registry' repository' index tag r',
       UploadOCIIndexManifest credential' registry' repository' index tag r' ∈
         trace (run P 0) →
       createReferrerTagManifest P
         (sha256Digest P (inl "{attestation sha256:63 of sha256:f1}"))
         (sizeInBytes P (inl "{attestation sha256:63 of sha256:f1}")) created =
       Normal index).
Proof.
  intros P.
  assert (trace (run P 0) !! 14 =
            Some (UploadOCIImageManifest (P:=P) "token" "https://ghcr.io"
                    "octo/action" "{attestation sha256:63 of sha256:f1}"
                    Demo.attestation_files None (Normal (Some "sha256:2a"))))
    as Hupload by reflexivity.
  split; [exact Hupload|].
  exact (attestation_manifest_inputs P 0 14 _ _ _ _ _ _ Hupload).
Defined.

Lemma attestation_outputs_are_registry_answers_witness :
  let P := Demo.platform Demo.unfaithful_to_attestations in
  trace (run P 0) !! 16 =
    Some (UploadOCIIndexManifest (P:=P) "token" "https://ghcr.io" "octo/action"
            "{index sha256:2a}" "sha256-f1" (Normal (Some "sha256:01"))) ∧
  ∃ manifest files answer,
    UploadOCIImageManifest (P:=P) "token" "https://ghcr.io" "octo/action"
      manifest files None (Normal answer) ∈ trace (run P 0) ∧
    match answer with
    | Some digest => SetOutput "attestation-manifest-sha" digest ∈ trace (run P 0)
    | None =>
        existsb (output_named "attestation-manifest-sha") (trace (run P 0)) = false
    end ∧
    SetOutput "referrer-index-manifest-sha" "sha256:01" ∈ trace (run P 0).
Proof.
  intros P.
  assert (trace (run P 0) !! 16 =
            Some (UploadOCIIndexManifest (P:=P) "token" "https://ghcr.io"
                    "octo/action" "{index sha256:2a}" "sha256-f1"
                    (Normal (Some "sha256:01")))) as Hupload
    by reflexivity.
  split; [exact Hupload|].
  exact (proj2 (proj2 (attestation_outputs_are_registry_answers P 0))
           16 _ _ _ _ _ _ Hupload).
Defined.
